(** * odoo_sync: the contact synchronisation cron job

    A shallow embedding of [odoo_sync/cron.py] (class
    [SyncOdooContactsCronJob]) and of the [OdooContact] model of
    [odoo_sync/models.py], followed by the properties of the job.

    Conventions.
    - Python values that travel through JSON are values of [PyVal].
    - A Python [dict] with string keys is an association list; the value of
      a key is its first binding.
    - The job is a state transformer on [World]: the [OdooContact] table,
      the clock read by [auto_now], the requests handed to [requests.post]
      and the records given to [logger].
    - What the job does not own is a parameter of the development: the remote
      end ([post]), the coercion the ORM applies to the lookup value of the
      integer column ([get_prep_value]), Python's [str] ([py_str]) and the
      failures of the database layer ([db_error]). *)

From stdpp Require Import gmap strings list fin_maps.
From Stdlib Require Import ZArith Lia DecimalString.

#[local] Set Warnings "-register-all,-clear-no-such-hyp".

Open Scope string_scope.
Open Scope list_scope.
Open Scope Z_scope.

(** ** Python values *)

Inductive PyVal : Type :=
| VNone
| VBool (b : bool)
| VInt (z : Z)
| VFloat (m e : Z)                      (* the float m * 2^e *)
| VStr (s : string)
| VList (l : list PyVal)
| VDict (d : list (string * PyVal)).

Abbreviation dict := (list (string * PyVal)).

(** [bool(v)], the truth value Python gives to [v]. *)
Definition truthy (v : PyVal) : bool :=
  match v with
  | VNone => false
  | VBool b => b
  | VInt z => negb (z =? 0)
  | VFloat m _ => negb (m =? 0)
  | VStr s => negb (String.eqb s "")
  | VList l => match l with [] => false | _ => true end
  | VDict d => match d with [] => false | _ => true end
  end.

(** [d[k]]: [None] stands for [KeyError]. *)
Fixpoint getitem (d : dict) (k : string) : option PyVal :=
  match d with
  | [] => None
  | (k', v) :: d' => if String.eqb k' k then Some v else getitem d' k
  end.

(** [d.get(k, dflt)] and [d.get(k)]. *)
Definition get_default (d : dict) (k : string) (dflt : PyVal) : PyVal :=
  match getitem d k with Some v => v | None => dflt end.

Definition get (d : dict) (k : string) : PyVal := get_default d k VNone.

(** [isinstance(v, list)], [isinstance(v, bool)], [v is False], [v is None]. *)
Definition is_list (v : PyVal) : bool :=
  match v with VList _ => true | _ => false end.

Definition is_bool (v : PyVal) : bool :=
  match v with VBool _ => true | _ => false end.

Definition is_False (v : PyVal) : bool :=
  match v with VBool false => true | _ => false end.

Definition is_None (v : PyVal) : bool :=
  match v with VNone => true | _ => false end.

(** [len(v)]: [None] stands for the [TypeError] of an unsized value. *)
Definition py_len (v : PyVal) : option nat :=
  match v with
  | VStr s => Some (String.length s)
  | VList l => Some (length l)
  | VDict d => Some (length d)
  | _ => None
  end.

(** The characters of a string, each a one-character string. *)
Fixpoint chars (s : string) : list PyVal :=
  match s with
  | EmptyString => []
  | String c s' => VStr (String c EmptyString) :: chars s'
  end.

(** What [for x in v] walks over: the elements of a list, the keys of a dict,
    the characters of a string; [None] for a value that is not iterable. *)
Definition py_iter (v : PyVal) : option (list PyVal) :=
  match v with
  | VStr s => Some (chars s)
  | VList l => Some l
  | VDict d => Some (map (fun kv => VStr (fst kv)) d)
  | _ => None
  end.

(** ** models.py *)

(** A row of [OdooContact].  The table is a finite map keyed by [odoo_id]
    (the column is [unique=True]), so the key is not repeated in the row.
    [name] is a [CharField] without [null=True], a text; the other text
    columns are declared [null=True]; [last_synced] is the time of the last
    save. *)
Record OdooContact : Type := {
  name : string;
  email : option string;
  phone : option string;
  street : option string;
  city : option string;
  zip_code : option string;
  country : option string;
  last_synced : nat
}.

(** [OdooContact()] before any keyword is applied: a [CharField] that is not
    nullable defaults to the empty string, a nullable one to [None]. *)
Definition blank (t : nat) : OdooContact :=
  {| name := ""; email := None; phone := None; street := None;
     city := None; zip_code := None; country := None; last_synced := t |}.

(** [getattr(obj, k)] for the text columns, as the database holds them. *)
Definition getattr (obj : OdooContact) (k : string) : option string :=
  if String.eqb k "name" then Some (name obj)
  else if String.eqb k "email" then email obj
  else if String.eqb k "phone" then phone obj
  else if String.eqb k "street" then street obj
  else if String.eqb k "city" then city obj
  else if String.eqb k "zip_code" then zip_code obj
  else if String.eqb k "country" then country obj
  else None.

(** [auto_now=True]: every save stamps the row with the current time. *)
Definition stamp (t : nat) (obj : OdooContact) : OdooContact :=
  {| name := name obj; email := email obj; phone := phone obj; street := street obj;
     city := city obj; zip_code := zip_code obj; country := country obj;
     last_synced := t |}.

Section Columns.

(** Python's [str(v)], used for a value that is not itself a string. *)
Variable py_str : PyVal -> string.

(** What a [CharField] stores for a value: [None] is NULL, a string is
    itself, anything else is its [str]. *)
Definition to_python (v : PyVal) : option string :=
  match v with
  | VNone => None
  | VStr s => Some s
  | _ => Some (py_str v)
  end.

(** The row after [setattr(obj, k, v)] and a save; [None] when the save
    raises: [name] cannot be NULL, and [k] must be a column. *)
Definition setattr (obj : OdooContact) (k : string) (v : PyVal)
    : option OdooContact :=
  if String.eqb k "name" then
    match to_python v with
    | Some s =>
        Some {| name := s; email := email obj; phone := phone obj;
                street := street obj; city := city obj; zip_code := zip_code obj;
                country := country obj; last_synced := last_synced obj |}
    | None => None
    end
  else if String.eqb k "email" then
    Some {| name := name obj; email := to_python v; phone := phone obj;
            street := street obj; city := city obj; zip_code := zip_code obj;
            country := country obj; last_synced := last_synced obj |}
  else if String.eqb k "phone" then
    Some {| name := name obj; email := email obj; phone := to_python v;
            street := street obj; city := city obj; zip_code := zip_code obj;
            country := country obj; last_synced := last_synced obj |}
  else if String.eqb k "street" then
    Some {| name := name obj; email := email obj; phone := phone obj;
            street := to_python v; city := city obj; zip_code := zip_code obj;
            country := country obj; last_synced := last_synced obj |}
  else if String.eqb k "city" then
    Some {| name := name obj; email := email obj; phone := phone obj;
            street := street obj; city := to_python v; zip_code := zip_code obj;
            country := country obj; last_synced := last_synced obj |}
  else if String.eqb k "zip_code" then
    Some {| name := name obj; email := email obj; phone := phone obj;
            street := street obj; city := city obj; zip_code := to_python v;
            country := country obj; last_synced := last_synced obj |}
  else if String.eqb k "country" then
    Some {| name := name obj; email := email obj; phone := phone obj;
            street := street obj; city := city obj; zip_code := zip_code obj;
            country := to_python v; last_synced := last_synced obj |}
  else None.

(** [for k, v in defaults.items(): setattr(obj, k, v)]. *)
Fixpoint set_defaults (defaults : dict) (obj : OdooContact)
    : option OdooContact :=
  match defaults with
  | [] => Some obj
  | (k, v) :: rest =>
      match setattr obj k v with
      | Some obj' => set_defaults rest obj'
      | None => None
      end
  end.

End Columns.

(** ** The world the job runs in *)

(** [jsonrpcclient]: what [parse_json] returns.  [Ok] and [Error] are the
    library's named tuples; [Batch] is the iterator it returns for a JSON
    array, an object that is neither [None], nor an [Ok], nor an [Error]. *)
Inductive Parsed : Type :=
| Ok (result : PyVal) (id : PyVal)
| Error (code : PyVal) (message : PyVal) (data : PyVal) (id : PyVal)
| Batch.

(** The string [request_json(method, params=...)] builds; the protocol tag
    and the running request number it adds are left out. *)
Record Payload : Type := { rpc_method : string; rpc_params : PyVal }.

Definition request_json (method : string) (params : PyVal) : Payload :=
  {| rpc_method := method; rpc_params := params |}.

Record Request : Type := { url : string; json : Payload }.

(** A [requests.Response].  [text] is the body; [jsonrpc] is what
    [parse_json] makes of that body, [None] when it raises. *)
Record Response : Type := {
  status_code : Z;
  reason : string;
  text : string;
  jsonrpc : option Parsed
}.

(** What [requests.post] does: it raises [requests.exceptions.Timeout],
    another [RequestException], some other exception, or returns. *)
Inductive PostOutcome : Type :=
| Timeout
| RequestException (msg : string)
| OtherException (msg : string)
| Responds (r : Response).

(** [response.raise_for_status()] raises [HTTPError] for 4xx and 5xx. *)
Definition raise_for_status (r : Response) : bool :=
  (400 <=? status_code r) && (status_code r <? 600).

(** The calls to [logger], one constructor for each call in [cron.py]. *)
Inductive LogRecord : Type :=
| InfoStarting
| ErrorTimeout (url method : string)
| ErrorHttp (url : string) (status : Z) (reason snippet : string)
| ErrorUnparsedErrorResponse
| ErrorRequestException (url msg : string)
| ErrorProcessing (url method : string)
| ErrorNotConfigured
| ErrorAuthFalse (result : PyVal)
| ErrorAuthFalsy (uid : PyVal)
| InfoAuthenticated (uid : PyVal)
| ErrorAuthFailed (message data : PyVal)
| ErrorUidNotObtained
| InfoFetched (n : nat)
| ErrorFetchFailed (message data : PyVal)
| ErrorSyncing (odoo_id : PyVal)
| InfoComplete (synced_count updated_count : nat).

Record World : Type := {
  objects : gmap Z OdooContact;     (* OdooContact.objects *)
  clock : nat;                      (* the time [auto_now] reads *)
  posted : list Request;            (* the calls to requests.post, oldest first *)
  logged : list LogRecord           (* the calls to logger, oldest first *)
}.

(** Exceptions that leave a function. *)
Inductive PyExn : Type :=
| KeyError
| AttributeError
| TypeError
| DjangoError.                      (* any exception raised inside the ORM *)

Inductive Res (A : Type) : Type :=
| Val (a : A)
| Exn (e : PyExn).
Arguments Val {A} a.
Arguments Exn {A} e.

(** Computations: they read and change the world, and return or raise. *)
Definition M (A : Type) : Type := World -> Res A * World.

Definition ret {A} (a : A) : M A := fun w => (Val a, w).

Definition raise {A} (e : PyExn) : M A := fun w => (Exn e, w).

Definition bind {A B} (m : M A) (k : A -> M B) : M B :=
  fun w => match m w with
           | (Val a, w') => k a w'
           | (Exn e, w') => (Exn e, w')
           end.

(** [try: body / except Exception as e: handler]. *)
Definition try_except {A} (body : M A) (handler : PyExn -> M A) : M A :=
  fun w => match body w with
           | (Val a, w') => (Val a, w')
           | (Exn e, w') => handler e w'
           end.

Notation "'let*' x := m 'in' k" := (bind m (fun x => k))
  (at level 10, x name, m at level 100, k at level 200).
Notation "m ;; k" := (bind m (fun _ => k))
  (at level 100, k at level 200, right associativity).

Definition logger (r : LogRecord) : M unit :=
  fun w => (Val tt, {| objects := objects w; clock := clock w;
                       posted := posted w; logged := logged w ++ [r] |}).

Definition record_post (q : Request) : M unit :=
  fun w => (Val tt, {| objects := objects w; clock := clock w;
                       posted := posted w ++ [q]; logged := logged w |}).

(** [settings]: each value is [None] when the attribute is missing. *)
Record Settings : Type := {
  ODOO_URL : option string;
  ODOO_DB : option string;
  ODOO_USERNAME : option string;
  ODOO_PASSWORD : option string
}.

Definition setting_truthy (o : option string) : bool :=
  match o with Some s => negb (String.eqb s "") | None => false end.

(** A setting inside an f-string, and as a parameter of a call. *)
Definition fmt (o : option string) : string :=
  match o with Some s => s | None => "None" end.

Definition setting_val (o : option string) : PyVal :=
  match o with Some s => VStr s | None => VNone end.

Definition service_eqb (service : option string) (s : string) : bool :=
  match service with Some s' => String.eqb s' s | None => false end.

(** [seq[1]] for a list. *)
Definition item1 (v : PyVal) : PyVal :=
  match v with VList (_ :: x :: _) => x | _ => VNone end.

Definition len_gt1 (v : PyVal) : bool :=
  match py_len v with Some n => (1 <? n)%nat | None => false end.

(** ** cron.py *)

Section SyncOdooContactsCronJob.

(** The remote end: what [requests.post(url, json=payload, timeout=20)]
    does with a request. *)
Variable post : Request -> PostOutcome.

(** The ORM's coercion of the lookup value [odoo_id=...] to the integer
    column; [None] when the value is refused and the lookup raises. *)
Variable get_prep_value : PyVal -> option Z.

(** Python's [str], for the values a text column is given. *)
Variable py_str : PyVal -> string.

(** The database layer: [db_error w z defaults] holds when writing the row
    [z] with [defaults] in the world [w] raises for a reason of its own (a
    value too long for its column, a lost connection). *)
Variable db_error : World -> Z -> dict -> bool.

(** The payload [_make_odoo_request] builds: the login shape for the
    [login] method of the [common] service, the [call] shape otherwise. *)
Definition odoo_payload (method : string) (service : option string)
    (params : dict) : Payload :=
  if service_eqb service "common" && String.eqb method "login" then
    request_json method (VDict params)
  else
    request_json "call"
      (VDict [("service", setting_val service);
              ("method", VStr method);
              ("args", VList [get params "db";
                              get params "uid";
                              get params "password";
                              get params "model";
                              get params "operation";
                              get_default params "domain" (VList []);
                              get_default params "kwargs" (VDict [])])]).

(** [_make_odoo_request(self, url, method, service=None, **params)]. *)
Definition make_odoo_request (url method : string) (service : option string)
    (params : dict) : M (option Parsed) :=
  let payload := odoo_payload method service params in
  let request := {| url := url; json := payload |} in
  record_post request ;;
  match post request with
  | Responds response =>
      if raise_for_status response then
        (* except requests.exceptions.HTTPError as e *)
        logger (ErrorHttp url (status_code response) (reason response)
                  (String.substring 0%nat 200%nat (text response))) ;;
        if negb (String.eqb (text response) "") then
          match jsonrpc response with
          | Some parsed => ret (Some parsed)
          | None => logger ErrorUnparsedErrorResponse ;; ret None
          end
        else ret None
      else
        match jsonrpc response with
        | Some parsed => ret (Some parsed)
        | None => logger (ErrorProcessing url method) ;; ret None
        end
  | Timeout => logger (ErrorTimeout url method) ;; ret None
  | RequestException msg => logger (ErrorRequestException url msg) ;; ret None
  | OtherException msg => logger (ErrorProcessing url method) ;; ret None
  end.

(** [OdooContact.objects.update_or_create(odoo_id=..., defaults=...)], by
    Django's contract for it: inside one transaction, look the row up by
    [odoo_id]; when it is there, set every key of [defaults] on it and save;
    when it is not, create it from [odoo_id] and [defaults]; saving stamps
    [last_synced].  An exception leaves the table as it was. *)
Definition update_or_create (odoo_id : PyVal) (defaults : dict)
    : M (OdooContact * bool) :=
  fun w =>
    match get_prep_value odoo_id with
    | None => (Exn DjangoError, w)
    | Some z =>
        if db_error w z defaults then (Exn DjangoError, w)
        else
          let '(obj, created) :=
            match objects w !! z with
            | Some obj => (obj, false)
            | None => (blank (clock w), true)
            end in
          match set_defaults py_str defaults obj with
          | None => (Exn DjangoError, w)
          | Some obj =>
              let obj := stamp (clock w) obj in
              (Val (obj, created),
               {| objects := <[z := obj]> (objects w); clock := S (clock w);
                  posted := posted w; logged := logged w |})
          end
    end.

(** The country of a record (the head of the loop body of [do]). *)
Definition country_name_of (contact_data : dict) : PyVal :=
  let country_name := VNone in
  if truthy (get contact_data "country_id")
     && is_list (get contact_data "country_id")
     && len_gt1 (get contact_data "country_id")
  then item1 (get contact_data "country_id")
  else if is_False (get contact_data "country_id") then VNone
  else country_name.

(** The [defaults] of a record, after the comprehension that drops a key
    whose value is [None] unless the key is one of the six listed. *)
Definition defaults_of (contact_data : dict) : dict :=
  let country_name := country_name_of contact_data in
  let defaults :=
    [("name", get contact_data "name");
     ("email", get contact_data "email");
     ("phone", get contact_data "phone");
     ("street", get contact_data "street");
     ("city", get contact_data "city");
     ("zip_code", get contact_data "zip");
     ("country", country_name)] in
  List.filter
    (fun kv => negb (is_None (snd kv))
               || existsb (String.eqb (fst kv))
                    ["email"; "phone"; "street"; "city"; "zip_code"; "country"])
    defaults.

(** [d[k]] inside a computation. *)
Definition subscript (d : dict) (k : string) : M PyVal :=
  match getitem d k with Some v => ret v | None => raise KeyError end.

(** One turn of [for contact_data in contacts_data], on the two counters.
    Only a dict has [.get]: on anything else the first line of the body
    raises, outside the [try]. *)
Definition sync_contact (counts : nat * nat) (contact_data : PyVal)
    : M (nat * nat) :=
  let '(synced_count, updated_count) := counts in
  match contact_data with
  | VDict contact_data =>
      let defaults := defaults_of contact_data in
      try_except
        (let* odoo_id := subscript contact_data "id" in
         let* r := update_or_create odoo_id defaults in
         if snd r then ret (S synced_count, updated_count)
         else ret (synced_count, S updated_count))
        (fun e => logger (ErrorSyncing (get contact_data "id")) ;; ret counts)
  | _ => raise AttributeError
  end.

Fixpoint sync_contacts (counts : nat * nat) (contacts_data : list PyVal)
    : M (nat * nat) :=
  match contacts_data with
  | [] => ret counts
  | contact_data :: rest =>
      let* counts := sync_contact counts contact_data in
      sync_contacts counts rest
  end.

(** [do(self)]. *)
Definition do (settings : Settings) : M unit :=
  logger InfoStarting ;;
  if negb (forallb setting_truthy
             [ODOO_URL settings; ODOO_DB settings;
              ODOO_USERNAME settings; ODOO_PASSWORD settings])
  then logger ErrorNotConfigured
  else
    (* Odoo Authentication *)
    let auth_url := String.append (fmt (ODOO_URL settings)) "/jsonrpc" in
    let auth_params :=
      [("db", setting_val (ODOO_DB settings));
       ("login", setting_val (ODOO_USERNAME settings));
       ("password", setting_val (ODOO_PASSWORD settings))] in
    let* parsed_response :=
      make_odoo_request auth_url "login" (Some "common") auth_params in
    match parsed_response with
    | None => ret tt
    | Some (Error _ message data _) => logger (ErrorAuthFailed message data)
    | Some Batch => raise AttributeError     (* no attribute [message] *)
    | Some (Ok uid _) =>
        if negb (truthy uid) && is_bool uid then logger (ErrorAuthFalse uid)
        else if negb (truthy uid) then logger (ErrorAuthFalsy uid)
        else
          logger (InfoAuthenticated uid) ;;
          if negb (truthy uid) then logger ErrorUidNotObtained
          else
            (* Data Fetching *)
            let models_url := String.append (fmt (ODOO_URL settings)) "/jsonrpc" in
            let fields_to_fetch :=
              VList [VStr "id"; VStr "name"; VStr "email"; VStr "phone";
                     VStr "street"; VStr "city"; VStr "zip"; VStr "country_id"] in
            let fetch_params :=
              [("db", setting_val (ODOO_DB settings));
               ("uid", uid);
               ("password", setting_val (ODOO_PASSWORD settings));
               ("model", VStr "res.partner");
               ("operation", VStr "search_read");
               ("domain", VList []);
               ("kwargs", VDict [("fields", fields_to_fetch)])] in
            let* contacts_response :=
              make_odoo_request models_url "execute_kw" (Some "object")
                fetch_params in
            match contacts_response with
            | None => ret tt
            | Some (Error _ message data _) =>
                logger (ErrorFetchFailed message data)
            | Some Batch => raise AttributeError
            | Some (Ok contacts_data _) =>
                match py_len contacts_data, py_iter contacts_data with
                | Some n, Some items =>
                    logger (InfoFetched n) ;;
                    (* Data Syncing *)
                    let* counts := sync_contacts (0%nat, 0%nat) items in
                    logger (InfoComplete (fst counts) (snd counts))
                | _, _ => raise TypeError      (* [len] of an unsized value *)
                end
            end
    end.

End SyncOdooContactsCronJob.

(** ** A concrete setting, for the examples *)

Module Fixture.

(** Integers, and booleans as the integers they are, are accepted. *)
Definition int_column (v : PyVal) : option Z :=
  match v with
  | VInt z => Some z
  | VBool b => Some (Z.b2z b)
  | _ => None
  end.

Definition no_db_error (w : World) (z : Z) (defaults : dict) : bool := false.

(** [str] on the values the examples may store; lists, dicts and floats,
    which they never store, are given the empty text. *)
Definition str (v : PyVal) : string :=
  match v with
  | VNone => "None"
  | VBool true => "True"
  | VBool false => "False"
  | VInt z => DecimalString.NilZero.string_of_int (Z.to_int z)
  | VStr s => s
  | _ => ""
  end.

Definition settings : Settings :=
  {| ODOO_URL := Some "http://fake-odoo-url.com"; ODOO_DB := Some "fake_db";
     ODOO_USERNAME := Some "fake_user"; ODOO_PASSWORD := Some "fake_password" |}.

Definition dq : string := String (Ascii.ascii_of_nat 34) EmptyString.

(** JSON text: a string, an object from its members, an array. *)
Definition jstr (s : string) : string := String.concat "" [dq; s; dq].

Definition member (k v : string) : string := String.concat "" [jstr k; ": "; v].

Definition jobject (members : list string) : string :=
  String.concat "" ["{"; String.concat ", " members; "}"].

Definition jarray (elements : list string) : string :=
  String.concat "" ["["; String.concat ", " elements; "]"].

(** The body [{"jsonrpc": "2.0", "id": 1, "result": <value>}]. *)
Definition envelope_text (value : string) : string :=
  jobject [member "jsonrpc" (jstr "2.0"); member "id" "1"; member "result" value].

(** A response with status [status] whose body is the success envelope that
    carries [result]; [value] is [result] as JSON text. *)
Definition success (status : Z) (reason : string) (value : string)
    (result : PyVal) : PostOutcome :=
  Responds {| status_code := status; reason := reason;
              text := envelope_text value;
              jsonrpc := Some (Ok result (VInt 1)) |}.

(** A remote end that answers the login call with [login] and every other
    call with [other]. *)
Definition remote (login other : PostOutcome) (q : Request) : PostOutcome :=
  if String.eqb (rpc_method (json q)) "login" then login else other.

Definition empty_world : World :=
  {| objects := ∅; clock := 0%nat; posted := []; logged := [] |}.

Definition world_with (rows : gmap Z OdooContact) : World :=
  {| objects := rows; clock := 1%nat; posted := []; logged := [] |}.

Definition run (post : Request -> PostOutcome) (w : World) : Res unit * World :=
  do post int_column str no_db_error settings w.

(** Rows. *)
Definition contact_seven : OdooContact :=
  {| name := "Contact Seven"; email := Some "seven@example.com";
     phone := Some "7777777"; street := None; city := None;
     zip_code := None; country := None; last_synced := 0%nat |}.

Definition pre_existing : OdooContact :=
  {| name := "PreExisting"; email := None; phone := None;
     street := None; city := None; zip_code := None; country := None;
     last_synced := 0%nat |}.

(** Records, each with its JSON text. *)
Definition contact_one : dict :=
  [("id", VInt 1); ("name", VStr "Test Contact 1");
   ("country_id", VList [VInt 10; VStr "Testland"])].

Definition contact_one_text : string :=
  jobject [member "id" "1"; member "name" (jstr "Test Contact 1");
           member "country_id" (jarray ["10"; jstr "Testland"])].

Definition no_id : dict := [("name", VStr "No Id")].

Definition no_id_text : string := jobject [member "name" (jstr "No Id")].

Definition seven_no_name : dict :=
  [("id", VInt 7); ("email", VStr "new@example.com")].

Definition seven_no_name_text : string :=
  jobject [member "id" "7"; member "email" (jstr "new@example.com")].

Definition seven_nulls : dict :=
  [("id", VInt 7); ("name", VNone); ("email", VNone)].

Definition seven_nulls_text : string :=
  jobject [member "id" "7"; member "name" "null"; member "email" "null"].

(** Answers of the remote end. *)
Definition login_ok : PostOutcome := success 200 "OK" "123" (VInt 123).

Definition login_false : PostOutcome := success 200 "OK" "false" (VBool false).

Definition login_500_with_result : PostOutcome :=
  success 500 "Server Error" "123" (VInt 123).

Definition fetched (texts : list string) (records : list dict) : PostOutcome :=
  success 200 "OK" (jarray texts) (VList (map VDict records)).

Definition two_records : PostOutcome :=
  fetched [contact_one_text; no_id_text] [contact_one; no_id].

Definition one_record : PostOutcome := fetched [contact_one_text] [contact_one].

(** A response whose body is plain text: [parse_json] raises on it. *)
Definition plain (status : Z) (reason body : string) : PostOutcome :=
  Responds {| status_code := status; reason := reason; text := body;
              jsonrpc := None |}.

Definition seven_update : dict :=
  [("id", VInt 7); ("name", VStr "Contact Seven Updated"); ("email", VNone);
   ("phone", VStr "777-NEW")].

Definition seven_update_text : string :=
  jobject [member "id" "7"; member "name" (jstr "Contact Seven Updated");
           member "email" "null"; member "phone" (jstr "777-NEW")].

(** The body [{"jsonrpc": "2.0", "id": 1, "error": {...}}] and the answer
    that carries it. *)
Definition rpc_error (status : Z) (reason message : string) : PostOutcome :=
  Responds {| status_code := status; reason := reason;
              text := jobject [member "jsonrpc" (jstr "2.0"); member "id" "1";
                               member "error"
                                 (jobject [member "code" "-32000";
                                           member "message" (jstr message);
                                           member "data" "null"])];
              jsonrpc := Some (Error (VInt (-32000)) (VStr message) VNone (VInt 1)) |}.

(** An answer whose body is a JSON array. *)
Definition batch_answer : PostOutcome :=
  Responds {| status_code := 200; reason := "OK"; text := jarray [];
              jsonrpc := Some Batch |}.

Definition contact_one_again : dict :=
  [("id", VInt 1); ("name", VStr "Renamed"); ("email", VStr "one@example.com")].

Definition login_params : dict :=
  [("db", VStr "fake_db"); ("login", VStr "fake_user");
   ("password", VStr "fake_password")].

Definition empty_db : Settings :=
  {| ODOO_URL := Some "http://fake-odoo-url.com"; ODOO_DB := Some "";
     ODOO_USERNAME := Some "fake_user"; ODOO_PASSWORD := Some "fake_password" |}.

Definition no_url : Settings :=
  {| ODOO_URL := None; ODOO_DB := Some "fake_db";
     ODOO_USERNAME := Some "fake_user"; ODOO_PASSWORD := Some "fake_password" |}.

End Fixture.


(** ** Vocabulary of the properties *)

(** All four settings are present. *)
Definition configured (settings : Settings) : bool :=
  forallb setting_truthy
    [ODOO_URL settings; ODOO_DB settings;
     ODOO_USERNAME settings; ODOO_PASSWORD settings].

(** The request [do] posts to log in, and the one it posts to fetch. *)
Definition login_request (settings : Settings) : Request :=
  {| url := String.append (fmt (ODOO_URL settings)) "/jsonrpc";
     json := odoo_payload "login" (Some "common")
               [("db", setting_val (ODOO_DB settings));
                ("login", setting_val (ODOO_USERNAME settings));
                ("password", setting_val (ODOO_PASSWORD settings))] |}.

Definition fetch_request (settings : Settings) (uid : PyVal) : Request :=
  {| url := String.append (fmt (ODOO_URL settings)) "/jsonrpc";
     json := odoo_payload "execute_kw" (Some "object")
               [("db", setting_val (ODOO_DB settings));
                ("uid", uid);
                ("password", setting_val (ODOO_PASSWORD settings));
                ("model", VStr "res.partner");
                ("operation", VStr "search_read");
                ("domain", VList []);
                ("kwargs",
                 VDict [("fields",
                         VList [VStr "id"; VStr "name"; VStr "email";
                                VStr "phone"; VStr "street"; VStr "city";
                                VStr "zip"; VStr "country_id"])])] |}.

(** What [_make_odoo_request] returns for an outcome of [requests.post], and
    what it logs on the way. *)
Definition reply (o : PostOutcome) : option Parsed :=
  match o with
  | Responds response =>
      if raise_for_status response then
        if negb (String.eqb (text response) "") then jsonrpc response else None
      else jsonrpc response
  | _ => None
  end.

Definition transport_log (url method : string) (o : PostOutcome)
    : list LogRecord :=
  match o with
  | Responds response =>
      if raise_for_status response then
        ErrorHttp url (status_code response) (reason response)
          (String.substring 0%nat 200%nat (text response))
        :: (if negb (String.eqb (text response) "") then
              match jsonrpc response with
              | Some _ => []
              | None => [ErrorUnparsedErrorResponse]
              end
            else [])
      else
        match jsonrpc response with
        | Some _ => []
        | None => [ErrorProcessing url method]
        end
  | Timeout => [ErrorTimeout url method]
  | RequestException msg => [ErrorRequestException url msg]
  | OtherException msg => [ErrorProcessing url method]
  end.

(** The world with some more requests posted and records logged. *)
Definition after (w : World) (qs : list Request) (ls : list LogRecord) : World :=
  {| objects := objects w; clock := clock w;
     posted := posted w ++ qs; logged := logged w ++ ls |}.

(** The world after the login call of a run, and after its fetch call. *)
Definition after_login (post : Request -> PostOutcome) (settings : Settings)
    (w : World) : World :=
  after w [login_request settings]
    (InfoStarting
     :: transport_log (url (login_request settings)) "login"
          (post (login_request settings))).

Definition after_fetch (post : Request -> PostOutcome) (settings : Settings)
    (uid : PyVal) (w : World) : World :=
  after (after_login post settings w) [fetch_request settings uid]
    (InfoAuthenticated uid
     :: transport_log (url (fetch_request settings uid)) "execute_kw"
          (post (fetch_request settings uid))).

(** The remote id under which a record is written, when it has one the ORM
    accepts. *)
Definition remote_id (get_prep_value : PyVal -> option Z) (contact_data : dict)
    : option Z :=
  match getitem contact_data "id" with
  | Some v => get_prep_value v
  | None => None
  end.

(** The text stored for a value that is not [None]. *)
Definition text_of (py_str : PyVal -> string) (v : PyVal) : string :=
  match v with VStr s => s | _ => py_str v end.

(** The row [obj] after the defaults of a record are set on it. *)
Definition mapped_row (py_str : PyVal -> string) (contact_data : dict)
    (obj : OdooContact) : OdooContact :=
  {| name := if is_None (get contact_data "name") then name obj
             else text_of py_str (get contact_data "name");
     email := to_python py_str (get contact_data "email");
     phone := to_python py_str (get contact_data "phone");
     street := to_python py_str (get contact_data "street");
     city := to_python py_str (get contact_data "city");
     zip_code := to_python py_str (get contact_data "zip");
     country := to_python py_str (country_name_of contact_data);
     last_synced := last_synced obj |}.

(** The world after the record [contact_data] has been written as row [z]. *)
Definition written (py_str : PyVal -> string) (w : World) (z : Z)
    (contact_data : dict) : World :=
  let obj := match objects w !! z with
             | Some obj => obj
             | None => blank (clock w)
             end in
  {| objects := <[z := stamp (clock w) (mapped_row py_str contact_data obj)]>
                  (objects w);
     clock := S (clock w); posted := posted w; logged := logged w |}.

(** The records a run walks over: the elements of the fetched result when
    login and fetch both return an [Ok], none when the run stops earlier. *)
Definition contacts_seen (post : Request -> PostOutcome) (settings : Settings)
    : list PyVal :=
  if configured settings then
    match reply (post (login_request settings)) with
    | Some (Ok uid _) =>
        if truthy uid then
          match reply (post (fetch_request settings uid)) with
          | Some (Ok contacts_data _) =>
              match py_len contacts_data, py_iter contacts_data with
              | Some _, Some items => items
              | _, _ => []
              end
          | _ => []
          end
        else []
    | _ => []
    end
  else [].

(** The number of per-record errors in a log. *)
Definition sync_errors (l : list LogRecord) : nat :=
  length (List.filter
            (fun r => match r with ErrorSyncing _ => true | _ => false end) l).

(** The local column a remote field is stored in. *)
Definition local_column (remote_field : string) : string :=
  if String.eqb remote_field "zip" then "zip_code"
  else if String.eqb remote_field "country_id" then "country"
  else remote_field.

Definition optional_fields : list string :=
  ["email"; "phone"; "street"; "city"; "zip"; "country_id"].

Definition scalar_fields : list string :=
  ["email"; "phone"; "street"; "city"; "zip"].

(** The decoding of the country relation as the design states it: a pair
    gives its second element; [false], [null] and an absent field give
    [None]. *)
Inductive country_decoding : option PyVal -> PyVal -> Prop :=
| decode_pair related_id display_name :
    country_decoding (Some (VList [related_id; display_name])) display_name
| decode_false : country_decoding (Some (VBool false)) VNone
| decode_null : country_decoding (Some VNone) VNone
| decode_absent : country_decoding None VNone.

(** The log records written by [logger.error], and the completion summary. *)
Definition is_error (r : LogRecord) : bool :=
  match r with
  | InfoStarting | InfoAuthenticated _ | InfoFetched _ | InfoComplete _ _ => false
  | _ => true
  end.

Definition is_summary (r : LogRecord) : bool :=
  match r with InfoComplete _ _ => true | _ => false end.

(** Two rows with the same text columns: they differ at most by the time of
    their last save. *)
Definition same_fields (obj obj' : OdooContact) : Prop :=
  stamp 0%nat obj = stamp 0%nat obj'.

(** The row a record is written over: the one the table has, or a fresh
    one. *)
Definition row_before (w : World) (z : Z) : OdooContact :=
  match objects w !! z with
  | Some obj => obj
  | None => blank (clock w)
  end.

(** The worlds the loop of [do] can lead to: each turn logs the error of a
    record or writes a row. *)
Inductive reconciled (py_str : PyVal -> string) (w : World) : World -> Prop :=
| reconciled_start : reconciled py_str w w
| reconciled_error w' v :
    reconciled py_str w w' ->
    reconciled py_str w (after w' [] [ErrorSyncing v])
| reconciled_write w' z d :
    reconciled py_str w w' ->
    reconciled py_str w (written py_str w' z d).

Definition is_dict (v : PyVal) : bool :=
  match v with VDict _ => true | _ => false end.

(** ** Properties *)

Section Properties.

Variable post : Request -> PostOutcome.
Variable get_prep_value : PyVal -> option Z.
Variable py_str : PyVal -> string.
Variable db_error : World -> Z -> dict -> bool.

Local Abbreviation make_odoo_request := (make_odoo_request post).
Local Abbreviation update_or_create :=
  (update_or_create get_prep_value py_str db_error).
Local Abbreviation sync_contact := (sync_contact get_prep_value py_str db_error).
Local Abbreviation sync_contacts := (sync_contacts get_prep_value py_str db_error).
Local Abbreviation do := (do post get_prep_value py_str db_error).
Local Abbreviation remote_id := (remote_id get_prep_value).
Local Abbreviation to_python := (to_python py_str).
Local Abbreviation set_defaults := (set_defaults py_str).
Local Abbreviation mapped_row := (mapped_row py_str).
Local Abbreviation written := (written py_str).
Local Abbreviation reconciled := (reconciled py_str).
Local Abbreviation after_login := (after_login post).
Local Abbreviation after_fetch := (after_fetch post).

(** Two worlds that differ by the spelling of their logs. *)
Ltac same_world :=
  unfold ret, logger, after; simpl; rewrite ?app_nil_r, <- ?app_assoc; reflexivity.

Lemma after_after w qs ls qs' ls' :
  after (after w qs ls) qs' ls' = after w (qs ++ qs') (ls ++ ls').
Proof. unfold after; simpl. by rewrite <- !app_assoc. Qed.

Lemma logger_run r w : logger r w = (Val tt, after w [] [r]).
Proof. unfold logger, after. by rewrite app_nil_r. Qed.

(** The transport step never raises, touches neither table nor clock, posts
    exactly one request and returns [reply] of its outcome. *)
Lemma make_odoo_request_run url method service params w q :
  q = {| url := url; json := odoo_payload method service params |} ->
  make_odoo_request url method service params w
  = (Val (reply (post q)), after w [q] (transport_log url method (post q))).
Proof.
  intros ->. set (q := {| url := url; json := _ |}).
  unfold make_odoo_request, bind, record_post, logger, ret.
  fold q. unfold reply, transport_log, after. simpl.
  destruct (post q) as [ | msg | msg | r]; simpl; try reflexivity.
  destruct (raise_for_status r); simpl.
  - destruct (negb (String.eqb (text r) "")); simpl.
    + destruct (jsonrpc r); simpl; by rewrite <- ?app_assoc.
    + reflexivity.
  - destruct (jsonrpc r); simpl; by rewrite ?app_nil_r.
Qed.

(** [do], path by path. *)
Lemma do_run settings w :
  do settings w =
  if configured settings then
    match reply (post (login_request settings)) with
    | None => (Val tt, after_login settings w)
    | Some (Error _ message data _) =>
        (Val tt, after (after_login settings w) [] [ErrorAuthFailed message data])
    | Some Batch => (Exn AttributeError, after_login settings w)
    | Some (Ok uid _) =>
        if truthy uid then
          match reply (post (fetch_request settings uid)) with
          | None => (Val tt, after_fetch settings uid w)
          | Some (Error _ message data _) =>
              (Val tt, after (after_fetch settings uid w) []
                         [ErrorFetchFailed message data])
          | Some Batch => (Exn AttributeError, after_fetch settings uid w)
          | Some (Ok contacts_data _) =>
              match py_len contacts_data, py_iter contacts_data with
              | Some n, Some items =>
                  match sync_contacts (0%nat, 0%nat) items
                          (after (after_fetch settings uid w) [] [InfoFetched n])
                  with
                  | (Val counts, w') =>
                      (Val tt, after w' [] [InfoComplete (fst counts) (snd counts)])
                  | (Exn e, w') => (Exn e, w')
                  end
              | _, _ => (Exn TypeError, after_fetch settings uid w)
              end
          end
        else
          (Val tt, after (after_login settings w) []
                     [if is_bool uid then ErrorAuthFalse uid else ErrorAuthFalsy uid])
    end
  else (Val tt, after w [] [InfoStarting; ErrorNotConfigured]).
Proof.
  unfold do. fold (configured settings).
  unfold bind at 1. rewrite logger_run.
  destruct (configured settings); simpl;
    [| by rewrite logger_run, after_after].
  unfold bind at 1.
  rewrite (make_odoo_request_run _ _ _ _ _ (login_request settings)) by reflexivity.
  assert (Hw1 : after (after w [] [InfoStarting]) [login_request settings]
                  (transport_log (String.append (fmt (ODOO_URL settings)) "/jsonrpc")
                     "login" (post (login_request settings)))
                = after_login settings w).
  { unfold after_login. by rewrite after_after. }
  rewrite Hw1. clear Hw1.
  destruct (reply (post (login_request settings))) as [[uid i | c m d i | ] | ];
    try reflexivity; [| by rewrite logger_run].
  destruct (truthy uid) eqn:Huid; simpl.
  2: { destruct (is_bool uid); simpl; by rewrite logger_run. }
  unfold bind at 1. rewrite logger_run. simpl.
  unfold bind at 1.
  rewrite (make_odoo_request_run _ _ _ _ _ (fetch_request settings uid)) by reflexivity.
  assert (Hw2 : after (after (after_login settings w) [] [InfoAuthenticated uid])
                  [fetch_request settings uid]
                  (transport_log (String.append (fmt (ODOO_URL settings)) "/jsonrpc")
                     "execute_kw" (post (fetch_request settings uid)))
                = after_fetch settings uid w).
  { unfold after_fetch. by rewrite after_after. }
  rewrite Hw2. clear Hw2.
  destruct (reply (post (fetch_request settings uid))) as [[data i2 | c m d i2 | ] | ];
    try reflexivity; [| by rewrite logger_run].
  destruct (py_len data) as [n|]; [| reflexivity].
  destruct (py_iter data) as [items|]; [| reflexivity].
  unfold bind at 1. rewrite logger_run. unfold bind at 1.
  destruct (sync_contacts _ _ _) as [[counts | e] w']; [| reflexivity].
  by rewrite logger_run.
Qed.

(** *** The field mapping *)

(** The comprehension keeps the six listed keys whatever their value and
    keeps [name] only when it is not [None]. *)
Lemma defaults_of_eq (contact_data : dict) :
  defaults_of contact_data =
  (if is_None (get contact_data "name") then []
   else [("name", get contact_data "name")])
  ++ [("email", get contact_data "email");
      ("phone", get contact_data "phone");
      ("street", get contact_data "street");
      ("city", get contact_data "city");
      ("zip_code", get contact_data "zip");
      ("country", country_name_of contact_data)].
Proof.
  unfold defaults_of. cbn [List.filter fst snd existsb String.eqb Ascii.eqb Bool.eqb].
  rewrite !orb_true_r. cbn [orb].
  by destruct (is_None (get contact_data "name")).
Qed.

(** Setting the defaults of a record on a row never fails: a name that is
    [None] is not among them. *)
Lemma set_defaults_of (contact_data : dict) (obj : OdooContact) :
  set_defaults (defaults_of contact_data) obj
  = Some (mapped_row contact_data obj).
Proof.
  rewrite defaults_of_eq. unfold mapped_row.
  by destruct (get contact_data "name").
Qed.

Lemma get_None (contact_data : dict) (k : string) :
  getitem contact_data k = None \/ getitem contact_data k = Some VNone ->
  get contact_data k = VNone.
Proof. unfold get, get_default. by intros [-> | ->]. Qed.

Lemma country_name_of_pair (contact_data : dict) (related_id display_name : PyVal) :
  getitem contact_data "country_id" = Some (VList [related_id; display_name]) ->
  country_name_of contact_data = display_name.
Proof. intros H. unfold country_name_of, get, get_default. by rewrite H. Qed.

Lemma country_name_of_unset (contact_data : dict) :
  getitem contact_data "country_id" = Some (VBool false)
  \/ getitem contact_data "country_id" = Some VNone
  \/ getitem contact_data "country_id" = None ->
  country_name_of contact_data = VNone.
Proof.
  unfold country_name_of, get, get_default. by intros [-> | [-> | ->]].
Qed.

(** One turn of the loop on a dict never raises: the row is written and
    counted, or the error is logged and the counters stay. *)
Lemma sync_contact_run c u d w :
  sync_contact (c, u) (VDict d) w =
  match remote_id d with
  | Some z =>
      if db_error w z (defaults_of d) then
        (Val (c, u), after w [] [ErrorSyncing (get d "id")])
      else
        (Val (match objects w !! z with
              | Some _ => (c, S u)
              | None => (S c, u)
              end),
         written w z d)
  | None => (Val (c, u), after w [] [ErrorSyncing (get d "id")])
  end.
Proof.
  unfold sync_contact, remote_id.
  unfold try_except, bind, subscript, update_or_create.
  destruct (getitem d "id") as [v|]; simpl; [| same_world].
  destruct (get_prep_value v) as [z|]; simpl; [| same_world].
  destruct (db_error w z (defaults_of d)); simpl; [same_world |].
  unfold written.
  destruct (objects w !! z); fold (defaults_of d); by rewrite set_defaults_of.
Qed.

Lemma sync_contacts_cons counts x items w :
  sync_contacts counts (x :: items) w =
  match sync_contact counts x w with
  | (Val counts', w') => sync_contacts counts' items w'
  | (Exn e, w') => (Exn e, w')
  end.
Proof. reflexivity. Qed.

Lemma omap_step {A B} (f : A -> option B) (x : A) (l : list A) (y : B) :
  f x = Some y -> omap f (x :: l) = y :: omap f l.
Proof. intros H. simpl. by rewrite H. Qed.

Lemma sync_errors_app l l' :
  sync_errors (l ++ l') = (sync_errors l + sync_errors l')%nat.
Proof. unfold sync_errors. by rewrite List.filter_app, length_app. Qed.

(** The loop over a batch of dicts never raises, posts nothing, and every
    record is counted once: as created, as updated, or as a logged error. *)
Lemma sync_contacts_dicts (ds : list dict) :
  forall c u w, exists c' u' w',
    sync_contacts (c, u) (map VDict ds) w = (Val (c', u'), w')
    /\ posted w' = posted w
    /\ (c' + u' + sync_errors (logged w')
        = c + u + sync_errors (logged w) + length ds)%nat.
Proof.
  induction ds as [| d ds IH]; intros c u w.
  - exists c, u, w. simpl. unfold ret. repeat split; lia.
  - rewrite map_cons, sync_contacts_cons, sync_contact_run.
    destruct (remote_id d) as [z|].
    + destruct (db_error w z (defaults_of d)).
      * destruct (IH c u (after w [] [ErrorSyncing (get d "id")]))
          as (c' & u' & w' & -> & Hp & Hn).
        exists c', u', w'. split; [done |]. simpl in *.
        rewrite sync_errors_app in Hn.
        change (sync_errors [ErrorSyncing (get d "id")]) with 1%nat in Hn.
        rewrite app_nil_r in Hp. split; [done | lia].
      * destruct (objects w !! z).
        -- destruct (IH c (S u) (written w z d))
             as (c' & u' & w' & -> & Hp & Hn).
           exists c', u', w'. simpl in *. repeat split; [done | lia].
        -- destruct (IH (S c) u (written w z d))
             as (c' & u' & w' & -> & Hp & Hn).
           exists c', u', w'. simpl in *. repeat split; [done | lia].
    + destruct (IH c u (after w [] [ErrorSyncing (get d "id")]))
        as (c' & u' & w' & -> & Hp & Hn).
      exists c', u', w'. split; [done |]. simpl in *.
      rewrite sync_errors_app in Hn.
      change (sync_errors [ErrorSyncing (get d "id")]) with 1%nat in Hn.
      rewrite app_nil_r in Hp. split; [done | lia].
Qed.

(** The loop writes no row but those of the records it walks over; this
    holds as well when the loop is left by an exception. *)
Lemma sync_contacts_frame (items : list PyVal) (z : Z) :
  (forall d, In (VDict d) items -> remote_id d <> Some z) ->
  forall counts w,
    objects (snd (sync_contacts counts items w)) !! z = objects w !! z.
Proof.
  induction items as [| x items IH]; intros Hz counts w; [done |].
  rewrite sync_contacts_cons.
  destruct x as [ | b | n | m e | s | l | d ];
    try (by destruct counts).
  destruct counts as [c u]. rewrite sync_contact_run.
  assert (Hd : remote_id d <> Some z) by (apply Hz; by left).
  assert (Hrest : forall d', In (VDict d') items -> remote_id d' <> Some z)
    by (intros d' Hin; apply Hz; by right).
  destruct (remote_id d) as [z'|].
  - destruct (db_error w z' (defaults_of d)).
    + by rewrite IH.
    + assert (z' <> z) by congruence.
      destruct (objects w !! z') eqn:Hrow; rewrite IH by done;
        unfold written; simpl; by rewrite lookup_insert_ne.
  - by rewrite IH.
Qed.

(** When no write fails, every record is created or updated and the table
    gains exactly the ids of the batch. *)
Lemma sync_contacts_all_written (ds : list dict) :
  (forall w z defaults, db_error w z defaults = false) ->
  Forall (fun d => is_Some (remote_id d)) ds ->
  forall c u w, exists c' u' w',
    sync_contacts (c, u) (map VDict ds) w = (Val (c', u'), w')
    /\ (c' + u' = c + u + length ds)%nat
    /\ dom (objects w') = dom (objects w) ∪ list_to_set (omap remote_id ds)
    /\ (list_to_set (omap remote_id ds) ⊆ dom (objects w) ->
        c' = c /\ u' = (u + length ds)%nat)
    /\ posted w' = posted w /\ logged w' = logged w.
Proof.
  intros Hdb Hids. induction Hids as [| d ds [z Hz] Hids IH]; intros c u w.
  - exists c, u, w. simpl. unfold ret. repeat split; try lia; set_solver.
  - rewrite map_cons, sync_contacts_cons, sync_contact_run, Hz, Hdb.
    rewrite (omap_step remote_id d ds z Hz), list_to_set_cons.
    destruct (objects w !! z) as [obj|] eqn:Hrow.
    + destruct (IH c (S u) (written w z d))
        as (c' & u' & w' & -> & Hn & Hdom & Hupd & Hp & Hl).
      exists c', u', w'. simpl in *.
      assert (Hin : z ∈ dom (objects w)) by (apply elem_of_dom; eauto).
      rewrite dom_insert_L in Hdom.
      repeat split; try done; try lia; try set_solver.
    + destruct (IH (S c) u (written w z d))
        as (c' & u' & w' & -> & Hn & Hdom & Hupd & Hp & Hl).
      exists c', u', w'. simpl in *.
      assert (Hin : z ∉ dom (objects w)) by (by apply not_elem_of_dom).
      rewrite dom_insert_L in Hdom.
      repeat split; try done; try lia; try set_solver.
Qed.

(** *** Runs that stop before the table is touched *)

Lemma sync_errors_transport_log u m o : sync_errors (transport_log u m o) = 0%nat.
Proof.
  destruct o as [ | msg | msg | r]; try reflexivity. unfold transport_log.
  destruct (raise_for_status r).
  - destruct (negb (String.eqb (text r) "")); [destruct (jsonrpc r) |]; reflexivity.
  - destruct (jsonrpc r); reflexivity.
Qed.

(** C9: when one of the four settings is missing, the run logs the
    configuration error and returns; it posts no request and writes no
    row. *)
Theorem C9_missing_setting_aborts_before_network (settings : Settings) (w : World) :
  ODOO_URL settings = None \/ ODOO_DB settings = None
  \/ ODOO_USERNAME settings = None \/ ODOO_PASSWORD settings = None ->
  exists w', do settings w = (Val tt, w')
    /\ posted w' = posted w
    /\ objects w' = objects w
    /\ logged w' = logged w ++ [InfoStarting; ErrorNotConfigured].
Proof.
  intros Hmissing.
  assert (Hc : configured settings = false).
  { unfold configured. apply not_true_is_false. intros Hall.
    cbn [forallb] in Hall. rewrite !andb_true_iff in Hall.
    destruct Hall as (H1 & H2 & H3 & H4 & _).
    destruct Hmissing as [H | [H | [H | H]]]; rewrite H in *; discriminate. }
  rewrite do_run, Hc. eexists. split; [reflexivity |].
  simpl. by rewrite app_nil_r.
Qed.

(** C7: when the login call returns an [Ok] whose result is falsy, the run
    returns after that one request with the table untouched, and its last
    log record tells the boolean [False] from the other falsy results. *)
Theorem C7_falsy_uid_fails_authentication (settings : Settings) (w : World)
    (uid i : PyVal) :
  configured settings = true ->
  reply (post (login_request settings)) = Some (Ok uid i) ->
  truthy uid = false ->
  exists w', do settings w = (Val tt, w')
    /\ objects w' = objects w
    /\ posted w' = posted w ++ [login_request settings]
    /\ last (logged w')
       = Some (if is_bool uid then ErrorAuthFalse uid else ErrorAuthFalsy uid)
    /\ (is_bool uid = true <-> uid = VBool false)
    /\ ErrorAuthFalse uid <> ErrorAuthFalsy uid.
Proof.
  intros Hc Hlogin Huid. rewrite do_run, Hc, Hlogin, Huid.
  eexists. split; [reflexivity |]. simpl.
  split; [done |]. split; [by rewrite app_nil_r |].
  split; [by rewrite last_snoc |]. split; [| done].
  destruct uid as [ | [] | | | | | ]; simpl in *; split; congruence.
Qed.

(** A response with status 4xx or 5xx stops the run with the table
    untouched, unless its body parses as a success envelope. *)
Lemma http_error_aborts_unless_success_body (settings : Settings) (w : World)
    (q : Request) (r : Response) :
  post q = Responds r ->
  raise_for_status r = true ->
  (forall result i, jsonrpc r <> Some (Ok result i)) ->
  (q = login_request settings
   \/ exists uid i, reply (post (login_request settings)) = Some (Ok uid i)
                    /\ q = fetch_request settings uid) ->
  objects (snd (do settings w)) = objects w.
Proof.
  intros Hq Hr Hbody Hwhich.
  assert (Hreply : forall result i, reply (post q) <> Some (Ok result i)).
  { intros result i. rewrite Hq. unfold reply. rewrite Hr.
    destruct (negb (String.eqb (text r) "")); [apply Hbody | done]. }
  rewrite do_run. destruct (configured settings); [| done].
  destruct Hwhich as [-> | (uid & i & Hlogin & ->)].
  - destruct (reply (post (login_request settings))) as [[uid i | c m d i | ] | ];
      try done. by specialize (Hreply uid i).
  - rewrite Hlogin. destruct (truthy uid); [| done].
    destruct (reply (post (fetch_request settings uid)))
      as [[data i2 | c m d i2 | ] | ]; try done.
    by specialize (Hreply data i2).
Qed.

(** *** Runs that reach the loop *)

Lemma sync_errors_before_loop settings uid w n :
  sync_errors (logged (after (after_fetch settings uid w) [] [InfoFetched n]))
  = sync_errors (logged w).
Proof.
  unfold after_fetch, after_login.
  simpl.
  change (InfoStarting :: ?l) with ([InfoStarting] ++ l).
  change (InfoAuthenticated uid :: ?l) with ([InfoAuthenticated uid] ++ l).
  rewrite !sync_errors_app, !sync_errors_transport_log.
  change (sync_errors [InfoStarting]) with 0%nat.
  change (sync_errors [InfoAuthenticated uid]) with 0%nat.
  change (sync_errors [InfoFetched n]) with 0%nat. lia.
Qed.

(** C8: whatever the records of the fetched batch and whatever writes
    fail, the run returns normally, its last log record is the completion
    summary, and every record of the batch was processed: it was created,
    updated, or its error was logged.  A record whose write fails (it has no
    id the store accepts, or the database raises) leaves the loop body
    normally, with its error logged and the counters as they were. *)
Theorem C8_record_errors_do_not_abort (settings : Settings) (w : World)
    (uid i i' : PyVal) (ds : list dict) :
  configured settings = true ->
  reply (post (login_request settings)) = Some (Ok uid i) ->
  truthy uid = true ->
  reply (post (fetch_request settings uid)) = Some (Ok (VList (map VDict ds)) i') ->
  (exists created updated w',
     do settings w = (Val tt, w')
     /\ last (logged w') = Some (InfoComplete created updated)
     /\ (created + updated + sync_errors (logged w')
         = length ds + sync_errors (logged w))%nat)
  /\ (forall counts d w0,
        (forall z, remote_id d = Some z -> db_error w0 z (defaults_of d) = true) ->
        sync_contact counts (VDict d) w0
        = (Val counts, after w0 [] [ErrorSyncing (get d "id")])).
Proof.
  intros Hc Hlogin Huid Hfetch. split.
  2: { intros [c u] d w0 Hfail. rewrite sync_contact_run.
       destruct (remote_id d) as [z|]; [| done]. by rewrite (Hfail z). }
  rewrite do_run, Hc, Hlogin, Huid, Hfetch. cbn [py_len py_iter].
  destruct (sync_contacts_dicts ds 0%nat 0%nat
              (after (after_fetch settings uid w) [] [InfoFetched (length (map VDict ds))]))
    as (c' & u' & w' & -> & _ & Hn).
  rewrite sync_errors_before_loop in Hn.
  exists c', u'. eexists. split; [reflexivity |]. cbn [after logged fst snd].
  split; [by rewrite last_snoc |].
  rewrite sync_errors_app. change (sync_errors [InfoComplete c' u']) with 0%nat. lia.
Qed.

(** What a run does when login and fetch succeed and no write fails. *)
Lemma do_all_written (settings : Settings) (w : World)
    (uid i i' : PyVal) (ds : list dict) :
  configured settings = true ->
  reply (post (login_request settings)) = Some (Ok uid i) ->
  truthy uid = true ->
  reply (post (fetch_request settings uid)) = Some (Ok (VList (map VDict ds)) i') ->
  (forall w z defaults, db_error w z defaults = false) ->
  Forall (fun d => is_Some (remote_id d)) ds ->
  exists created updated w',
    do settings w = (Val tt, w')
    /\ last (logged w') = Some (InfoComplete created updated)
    /\ (created + updated = length ds)%nat
    /\ dom (objects w') = dom (objects w) ∪ list_to_set (omap remote_id ds)
    /\ (list_to_set (omap remote_id ds) ⊆ dom (objects w) ->
        created = 0%nat /\ updated = length ds).
Proof.
  intros Hc Hlogin Huid Hfetch Hdb Hids.
  rewrite do_run, Hc, Hlogin, Huid, Hfetch. cbn [py_len py_iter].
  destruct (sync_contacts_all_written ds Hdb Hids 0%nat 0%nat
              (after (after_fetch settings uid w) [] [InfoFetched (length (map VDict ds))]))
    as (c' & u' & w' & -> & Hn & Hdom & Hupd & _ & _).
  exists c', u'. eexists. split; [reflexivity |]. cbn [after logged objects fst snd].
  split; [by rewrite last_snoc |]. split; [lia |]. split; [done |].
  intros Hsub. destruct (Hupd Hsub) as [-> ->]. split; [done | lia].
Qed.

(** C3 (amended): when login and fetch succeed and every record is written,
    the ids of the rows after the run are the ids before it together with
    the remote ids seen, so the number of rows is the number of distinct ids
    among the two (the number of distinct remote ids seen when the table was
    empty), and created plus updated is the number of fetched records. *)
Theorem C3_rows_and_counts (settings : Settings) (w : World)
    (uid i i' : PyVal) (ds : list dict) :
  configured settings = true ->
  reply (post (login_request settings)) = Some (Ok uid i) ->
  truthy uid = true ->
  reply (post (fetch_request settings uid)) = Some (Ok (VList (map VDict ds)) i') ->
  (forall w z defaults, db_error w z defaults = false) ->
  Forall (fun d => is_Some (remote_id d)) ds ->
  exists created updated w',
    do settings w = (Val tt, w')
    /\ last (logged w') = Some (InfoComplete created updated)
    /\ (created + updated = length ds)%nat
    /\ dom (objects w') = dom (objects w) ∪ list_to_set (omap remote_id ds)
    /\ size (objects w')
       = size (dom (objects w) ∪ list_to_set (omap remote_id ds) : gset Z)
    /\ (objects w = ∅ ->
        size (objects w') = size (list_to_set (omap remote_id ds) : gset Z)).
Proof.
  intros Hc Hlogin Huid Hfetch Hdb Hids.
  destruct (do_all_written settings w uid i i' ds Hc Hlogin Huid Hfetch Hdb Hids)
    as (c & u & w' & Hrun & Hlast & Hn & Hdom & _).
  exists c, u, w'. repeat (split; [done |]).
  split.
  - by rewrite <- size_dom, Hdom.
  - intros Hempty. rewrite <- size_dom, Hdom, Hempty, dom_empty_L.
    by rewrite (left_id_L ∅ (∪)).
Qed.

(** C6 (amended): when login and fetch succeed with the same answers in two
    runs in a row and every record is written in both, the second run
    creates nothing, updates as many rows as the batch has records, and
    leaves the set of rows, hence their number, as the first run left it. *)
Theorem C6_second_run_updates_only (settings : Settings) (w : World)
    (uid i i' : PyVal) (ds : list dict) :
  configured settings = true ->
  reply (post (login_request settings)) = Some (Ok uid i) ->
  truthy uid = true ->
  reply (post (fetch_request settings uid)) = Some (Ok (VList (map VDict ds)) i') ->
  (forall w z defaults, db_error w z defaults = false) ->
  Forall (fun d => is_Some (remote_id d)) ds ->
  exists w1 w2,
    do settings w = (Val tt, w1)
    /\ do settings w1 = (Val tt, w2)
    /\ last (logged w2) = Some (InfoComplete 0 (length ds))
    /\ dom (objects w2) = dom (objects w1)
    /\ size (objects w2) = size (objects w1).
Proof.
  intros Hc Hlogin Huid Hfetch Hdb Hids.
  destruct (do_all_written settings w uid i i' ds Hc Hlogin Huid Hfetch Hdb Hids)
    as (c1 & u1 & w1 & Hrun1 & _ & _ & Hdom1 & _).
  destruct (do_all_written settings w1 uid i i' ds Hc Hlogin Huid Hfetch Hdb Hids)
    as (c2 & u2 & w2 & Hrun2 & Hlast2 & _ & Hdom2 & Hupd).
  assert (Hsub : list_to_set (omap remote_id ds) ⊆ dom (objects w1))
    by (rewrite Hdom1; set_solver).
  destruct (Hupd Hsub) as [-> ->].
  assert (Hdom : dom (objects w2) = dom (objects w1)) by set_solver.
  exists w1, w2. repeat (split; [done |]).
  by rewrite <- !size_dom, Hdom.
Qed.

(** C10: a run leaves every row alone whose remote id is not the id of a
    record it walks over: the row is still there with all its columns,
    [last_synced] included (and an id that had no row and was not fetched
    still has none). *)
Theorem C10_rows_not_fetched_unchanged (settings : Settings) (w : World) (z : Z) :
  (forall d, In (VDict d) (contacts_seen post settings) -> remote_id d <> Some z) ->
  objects (snd (do settings w)) !! z = objects w !! z.
Proof.
  unfold contacts_seen. intros Hz. rewrite do_run.
  destruct (configured settings); [| done].
  destruct (reply (post (login_request settings))) as [[uid i | c m d i | ] | ];
    try done.
  destruct (truthy uid); [| done].
  destruct (reply (post (fetch_request settings uid)))
    as [[data i2 | c m d i2 | ] | ]; try done.
  destruct (py_len data) as [n|]; [| done].
  destruct (py_iter data) as [items|]; [| done].
  pose proof (sync_contacts_frame items z Hz (0%nat, 0%nat)
                (after (after_fetch settings uid w) [] [InfoFetched n])) as Hframe.
  destruct (sync_contacts _ _ _) as [[counts | e] w']; exact Hframe.
Qed.

(** *** The mapping of one record *)

Lemma defaults_of_country (contact_data : dict) :
  getitem (defaults_of contact_data) "country" = Some (country_name_of contact_data).
Proof.
  rewrite defaults_of_eq. by destruct (is_None (get contact_data "name")).
Qed.

(** C4: a country relation that is a pair [[related_id, display_name]] is
    mapped to [display_name]; one that is [False], [None] or absent is
    mapped to [None]. *)
Theorem C4_country_decoding (contact_data : dict) (c : PyVal) :
  country_decoding (getitem contact_data "country_id") c ->
  country_name_of contact_data = c
  /\ getitem (defaults_of contact_data) "country" = Some c.
Proof.
  intros Hdec. rewrite defaults_of_country.
  assert (country_name_of contact_data = c) as ->; [| done].
  inversion Hdec as [rid dn Heq | Heq | Heq | Heq]; subst.
  - by apply (country_name_of_pair _ rid).
  - apply country_name_of_unset. by left.
  - apply country_name_of_unset. right. by left.
  - apply country_name_of_unset. right. by right.
Qed.

Lemma getattr_mapped_row_unset (contact_data : dict) (obj : OdooContact)
    (f : string) :
  In f optional_fields ->
  getitem contact_data f = None \/ getitem contact_data f = Some VNone ->
  getattr (mapped_row contact_data obj) (local_column f) = None.
Proof.
  intros Hin Hf.
  assert (Hget : get contact_data f = VNone) by (by apply get_None).
  assert (Hcountry : f = "country_id" -> country_name_of contact_data = VNone).
  { intros ->. apply country_name_of_unset. destruct Hf; [right; by right | right; by left]. }
  repeat (destruct Hin as [<- | Hin];
          [ cbn; rewrite ?Hget, ?Hcountry; reflexivity | ]);
    destruct Hin.
Qed.

(** C2 (amended): the mapping is a total function of the record and setting
    its result on a row never fails.  A field among email, phone, street,
    city, zip and the country relation that is absent from the record is
    mapped to [None] and stored as NULL.  An absent name is left out of the
    mapping, so that writing it keeps the name the row has. *)
Theorem C2_missing_fields_map_to_null (contact_data : dict) :
  (forall obj, is_Some (set_defaults (defaults_of contact_data) obj))
  /\ (forall f obj obj',
        In f optional_fields ->
        getitem contact_data f = None ->
        set_defaults (defaults_of contact_data) obj = Some obj' ->
        getitem (defaults_of contact_data) (local_column f) = Some VNone
        /\ getattr obj' (local_column f) = None)
  /\ (forall obj obj',
        getitem contact_data "name" = None ->
        set_defaults (defaults_of contact_data) obj = Some obj' ->
        getitem (defaults_of contact_data) "name" = None
        /\ name obj' = name obj).
Proof.
  split; [| split].
  - intros obj. rewrite set_defaults_of. by eexists.
  - intros f obj obj' Hin Hf. rewrite set_defaults_of. intros [= <-]. split.
    + rewrite defaults_of_eq.
      assert (Hget : get contact_data f = VNone) by (apply get_None; by left).
      assert (Hcountry : f = "country_id" -> country_name_of contact_data = VNone).
      { intros ->. apply country_name_of_unset. right. by right. }
      destruct (is_None (get contact_data "name"));
        repeat (destruct Hin as [<- | Hin];
                [ cbn; rewrite ?Hget, ?Hcountry; reflexivity | ]);
        destruct Hin.
    + apply getattr_mapped_row_unset; [done | by left].
  - intros obj obj' Hname. rewrite set_defaults_of. intros [= <-].
    assert (Hget : get contact_data "name" = VNone) by (apply get_None; by left).
    rewrite defaults_of_eq. unfold mapped_row. rewrite Hget. by split.
Qed.

(** C5 (amended): when a record is written over the row it names, a field
    among email, phone, street, city, zip and the country relation that the
    record carries with the value [None] leaves its column NULL; the five
    scalar ones are stored as they come; a name that is [None] is not
    written and the row keeps its name. *)
Theorem C5_explicit_null_clears (contact_data : dict) (w : World) (z : Z)
    (obj : OdooContact) (counts : nat * nat) :
  remote_id contact_data = Some z ->
  objects w !! z = Some obj ->
  db_error w z (defaults_of contact_data) = false ->
  exists obj',
    objects (snd (sync_contact counts (VDict contact_data) w)) !! z = Some obj'
    /\ (forall f, In f optional_fields ->
                  getitem contact_data f = Some VNone ->
                  getattr obj' (local_column f) = None)
    /\ (forall f, In f scalar_fields ->
                  getattr obj' (local_column f) = to_python (get contact_data f))
    /\ (getitem contact_data "name" = Some VNone -> name obj' = name obj).
Proof.
  intros Hid Hrow Hdb. destruct counts as [c u].
  rewrite sync_contact_run, Hid, Hdb. unfold written. rewrite Hrow.
  cbn [snd objects]. rewrite lookup_insert_eq. eexists. split; [reflexivity |].
  split; [| split].
  - intros f Hin Hf.
    apply (getattr_mapped_row_unset contact_data obj f Hin). by right.
  - intros f Hin.
    repeat (destruct Hin as [<- | Hin]; [ reflexivity | ]); destruct Hin.
  - intros Hname.
    assert (Hget : get contact_data "name" = VNone) by (apply get_None; by right).
    cbn. by rewrite Hget.
Qed.

(** ** Further properties of the transport step *)



(** X3: no failure of the transport step is silent: when it returns [None] it
    has logged an error; when the answer has a status outside 4xx and 5xx
    and parses, it has logged nothing. *)
Theorem make_odoo_request_none_is_logged (url method : string)
    (service : option string) (params : dict) (w : World) :
  let q := {| url := url; json := odoo_payload method service params |} in
  let w' := snd (make_odoo_request url method service params w) in
  (fst (make_odoo_request url method service params w) = Val None ->
   exists r ls, logged w' = logged w ++ r :: ls /\ is_error r = true)
  /\ (forall r p, post q = Responds r -> raise_for_status r = false ->
                  jsonrpc r = Some p -> logged w' = logged w).
Proof.
  intros q w'. subst w'.
  rewrite (make_odoo_request_run url method service params w _ eq_refl).
  fold q. cbn [fst snd after logged]. split.
  - intros [= Hr]. unfold reply in Hr. unfold transport_log.
    destruct (post q) as [ | msg | msg | r]; try (by do 2 eexists).
    destruct (raise_for_status r); [by do 2 eexists |].
    rewrite Hr. by do 2 eexists.
  - intros r p -> Hs Hp. unfold transport_log. rewrite Hs, Hp. by rewrite app_nil_r.
Qed.

Lemma substring_prefix (n : nat) (s : string) :
  (String.length (String.substring 0 n s) <= n)%nat
  /\ (exists rest, s = String.append (String.substring 0 n s) rest)
  /\ ((String.length s <= n)%nat -> String.substring 0 n s = s).
Proof.
  revert s. induction n as [| n IH]; intros s.
  - destruct s as [| c s]; cbn.
    + repeat split; try lia. by exists "".
    + repeat split; try lia. by exists (String c s).
  - destruct s as [| c s]; cbn.
    + repeat split; try lia. by exists "".
    + destruct (IH s) as (Hlen & [rest Hrest] & Hshort).
      repeat split; [lia | |].
      * exists rest. rewrite Hrest at 1. reflexivity.
      * intros H. rewrite Hshort; [done | cbn in H; lia].
Qed.

(** X4: an answer with status 4xx or 5xx is logged with its status, its reason
    and the first 200 characters of its body: the snippet is a prefix of the
    body, never longer than 200, and the whole body when that is short
    enough. *)
Theorem http_error_snippet_is_bounded (url method : string)
    (service : option string) (params : dict) (w : World) (r : Response) :
  post {| url := url; json := odoo_payload method service params |} = Responds r ->
  raise_for_status r = true ->
  exists snippet ls,
    logged (snd (make_odoo_request url method service params w))
    = logged w ++ ErrorHttp url (status_code r) (reason r) snippet :: ls
    /\ (String.length snippet <= 200)%nat
    /\ (exists rest, text r = String.append snippet rest)
    /\ ((String.length (text r) <= 200)%nat -> snippet = text r).
Proof.
  intros Hq Hs.
  rewrite (make_odoo_request_run url method service params w _ eq_refl).
  rewrite Hq. cbn [snd after logged]. unfold transport_log. rewrite Hs.
  do 2 eexists. split; [reflexivity |]. apply substring_prefix.
Qed.

(** ** Further properties of the loop and of the run *)

Lemma reconciled_trans w1 w2 w3 :
  reconciled w1 w2 -> reconciled w2 w3 -> reconciled w1 w3.
Proof.
  intros H12 H23. induction H23 as [| w' v _ IH | w' z d _ IH]; [done | |].
  - by apply reconciled_error.
  - by apply reconciled_write.
Qed.

(** The loop leads from a world to a reconciled one, and the only exception
    that leaves it is the [AttributeError] of an element without [.get]. *)
Lemma sync_contacts_reconciled (items : list PyVal) :
  forall counts w,
    reconciled w (snd (sync_contacts counts items w))
    /\ (forall e, fst (sync_contacts counts items w) = Exn e -> e = AttributeError).
Proof.
  induction items as [| x items IH]; intros counts w.
  - split; [apply reconciled_start | done].
  - rewrite sync_contacts_cons.
    destruct x as [ | b | n | m e | s | l | d ];
      try (destruct counts; split; [apply reconciled_start | by intros e' [= <-]]).
    destruct counts as [c u]. rewrite sync_contact_run.
    destruct (remote_id d) as [z|].
    + destruct (db_error w z (defaults_of d)).
      * destruct (IH (c, u) (after w [] [ErrorSyncing (get d "id")])) as [Hr He].
        split; [| done].
        eapply reconciled_trans; [| exact Hr].
        apply reconciled_error, reconciled_start.
      * destruct (objects w !! z);
          match goal with
          | |- context [sync_contacts ?cs items (written w z d)] =>
              destruct (IH cs (written w z d)) as [Hr He]
          end;
          (split; [| done]);
          (eapply reconciled_trans; [| exact Hr]);
          apply reconciled_write, reconciled_start.
    + destruct (IH (c, u) (after w [] [ErrorSyncing (get d "id")])) as [Hr He].
      split; [| done].
      eapply reconciled_trans; [| exact Hr].
      apply reconciled_error, reconciled_start.
Qed.

(** What reconciliation keeps: it posts nothing, deletes no row, never turns
    the clock back, and a row it leaves differs from the one before only if
    it was saved at a time between the two clocks. *)
Lemma reconciled_keeps w w' :
  reconciled w w' ->
  posted w' = posted w
  /\ dom (objects w) ⊆ dom (objects w')
  /\ (clock w <= clock w')%nat
  /\ (forall z obj, objects w' !! z = Some obj ->
        objects w !! z = Some obj
        \/ (clock w <= last_synced obj < clock w')%nat).
Proof.
  induction 1 as [| w' v _ (Hp & Hd & Hc & Hs) | w' z d _ (Hp & Hd & Hc & Hs)].
  - repeat split; try done. intros z obj Hz. by left.
  - simpl. rewrite app_nil_r. repeat split; done.
  - unfold written. simpl. rewrite dom_insert_L.
    split; [done |]. split; [set_solver |]. split; [lia |].
    intros z' obj Hz'. destruct (decide (z = z')) as [<- | Hne].
    + rewrite lookup_insert_eq in Hz'. injection Hz' as <-. right. simpl. lia.
    + rewrite lookup_insert_ne in Hz' by done.
      destruct (Hs z' obj Hz') as [Hold | Hnew]; [by left | right; lia].
Qed.

(** The table and the clock after a run are those the loop leaves, started
    from the table and the clock before the run; without records to walk
    over they are those before the run. *)
Lemma do_reconciled (settings : Settings) (w : World) :
  exists w0 w1,
    objects w0 = objects w /\ clock w0 = clock w
    /\ reconciled w0 w1
    /\ objects (snd (do settings w)) = objects w1
    /\ clock (snd (do settings w)) = clock w1
    /\ (contacts_seen post settings = [] -> w1 = w0)
    /\ (forall e, fst (do settings w) = Exn e -> e = AttributeError \/ e = TypeError).
Proof.
  rewrite do_run. unfold contacts_seen.
  assert (Hstop : forall (r : Res unit) (w0 : World) (l : list PyVal),
            objects w0 = objects w -> clock w0 = clock w ->
            (forall e, r = Exn e -> e = AttributeError \/ e = TypeError) ->
            exists w0' w1,
              objects w0' = objects w /\ clock w0' = clock w
              /\ reconciled w0' w1
              /\ objects (snd (r, w0)) = objects w1
              /\ clock (snd (r, w0)) = clock w1
              /\ (l = [] -> w1 = w0')
              /\ (forall e, fst (r, w0) = Exn e -> e = AttributeError \/ e = TypeError)).
  { intros r w0 l Ho Hc He. exists w0, w0.
    repeat split; try done. apply reconciled_start. }
  destruct (configured settings); [| by apply Hstop].
  destruct (reply (post (login_request settings))) as [[uid i | c m d i | ] | ];
    try (apply Hstop; try done; intros e [= <-]; by left).
  destruct (truthy uid); [| by apply Hstop].
  destruct (reply (post (fetch_request settings uid)))
    as [[data i2 | c m d i2 | ] | ];
    try (apply Hstop; try done; intros e [= <-]; by left).
  destruct (py_len data) as [n|];
    [| apply Hstop; try done; intros e [= <-]; by right].
  destruct (py_iter data) as [items|];
    [| apply Hstop; try done; intros e [= <-]; by right].
  set (w0 := after (after_fetch settings uid w) [] [InfoFetched n]).
  destruct (sync_contacts_reconciled items (0%nat, 0%nat) w0) as [Hr He].
  exists w0, (snd (sync_contacts (0%nat, 0%nat) items w0)).
  split; [done |]. split; [done |]. split; [done |].
  destruct (sync_contacts (0%nat, 0%nat) items w0) as [[counts | e] w1] eqn:Hloop;
    cbn [fst snd] in *.
  - repeat split; try done. intros ->. by injection Hloop as _ <-.
  - repeat split; try done.
    + intros ->. by injection Hloop as _ <-.
    + intros e' [= <-]. left. by apply He.
Qed.

(** X15: a run never deletes a row, whatever the remote end answers and
    whichever way the run ends. *)
Theorem do_never_deletes (settings : Settings) (w : World) :
  dom (objects w) ⊆ dom (objects (snd (do settings w))).
Proof.
  destruct (do_reconciled settings w) as (w0 & w1 & Ho & _ & Hr & -> & _).
  destruct (reconciled_keeps w0 w1 Hr) as (_ & Hd & _). by rewrite <- Ho.
Qed.

(** X16: every row of the table after a run is the row the table had before, or
    was saved during the run: its [last_synced] lies between the clock
    before the run and the clock after it. *)
Theorem do_stamps_what_it_writes (settings : Settings) (w : World) (z : Z)
    (obj : OdooContact) :
  objects (snd (do settings w)) !! z = Some obj ->
  objects w !! z = Some obj
  \/ (clock w <= last_synced obj < clock (snd (do settings w)))%nat.
Proof.
  destruct (do_reconciled settings w) as (w0 & w1 & Ho & Hc & Hr & -> & -> & _).
  destruct (reconciled_keeps w0 w1 Hr) as (_ & _ & _ & Hs).
  rewrite <- Ho, <- Hc. apply Hs.
Qed.

(** X17: a run that walks over no record (it stopped on a configuration,
    transport, authentication or fetch failure, or the fetched list is
    empty) leaves the table and the clock exactly as they were. *)
Theorem do_without_records_writes_nothing (settings : Settings) (w : World) :
  contacts_seen post settings = [] ->
  objects (snd (do settings w)) = objects w
  /\ clock (snd (do settings w)) = clock w.
Proof.
  intros Hnone.
  destruct (do_reconciled settings w) as (w0 & w1 & Ho & Hc & _ & -> & -> & Hsame & _).
  rewrite (Hsame Hnone). by split.
Qed.

(** X14: the only exceptions that leave [do] are the [AttributeError] of an
    answer or a record of the wrong type and the [TypeError] of a fetched
    result without a length: a missing id and the errors of the ORM are
    caught. *)
Theorem do_raises_only_type_errors (settings : Settings) (w : World) (e : PyExn) :
  fst (do settings w) = Exn e -> e = AttributeError \/ e = TypeError.
Proof.
  destruct (do_reconciled settings w) as (w0 & w1 & _ & _ & _ & _ & _ & _ & He).
  apply He.
Qed.

(** *** The requests of a run *)

Lemma do_posted_logged_in (settings : Settings) (w : World) (uid i : PyVal) :
  configured settings = true ->
  reply (post (login_request settings)) = Some (Ok uid i) ->
  truthy uid = true ->
  posted (snd (do settings w))
  = posted w ++ [login_request settings; fetch_request settings uid].
Proof.
  intros Hc Hlogin Huid. rewrite do_run, Hc, Hlogin, Huid.
  destruct (reply (post (fetch_request settings uid)))
    as [[data i2 | c m d i2 | ] | ];
    try (cbn; rewrite <- ?app_assoc; by rewrite ?app_nil_r).
  destruct (py_len data) as [n|]; [| cbn; by rewrite <- app_assoc].
  destruct (py_iter data) as [items|]; [| cbn; by rewrite <- app_assoc].
  set (w0 := after (after_fetch settings uid w) [] [InfoFetched n]).
  destruct (sync_contacts_reconciled items (0%nat, 0%nat) w0) as [Hr _].
  apply reconciled_keeps in Hr as [Hp _].
  destruct (sync_contacts (0%nat, 0%nat) items w0) as [[counts | e] w1];
    cbn [snd after posted] in *; rewrite ?app_nil_r, Hp; subst w0;
    cbn; rewrite <- ?app_assoc; by rewrite ?app_nil_r.
Qed.

(** X5: a run posts at most two requests: none when a setting is missing,
    otherwise the login request, followed by the fetch request only when
    login returned an [Ok] with a truthy uid; the fetch request carries that
    uid. *)
Theorem do_posts_login_then_fetch (settings : Settings) (w : World) :
  exists qs,
    posted (snd (do settings w)) = posted w ++ qs
    /\ (configured settings = false -> qs = [])
    /\ (configured settings = true ->
        qs = [login_request settings]
        \/ exists uid i,
             reply (post (login_request settings)) = Some (Ok uid i)
             /\ truthy uid = true
             /\ qs = [login_request settings; fetch_request settings uid]).
Proof.
  destruct (configured settings) eqn:Hc.
  2: { exists []. rewrite do_run, Hc. by repeat split. }
  destruct (reply (post (login_request settings))) as [[uid i | c m d i | ] | ] eqn:Hl.
  2-4: exists [login_request settings]; rewrite do_run, Hc, Hl; cbn;
       rewrite ?app_nil_r; repeat split; try done; intros _; by left.
  destruct (truthy uid) eqn:Huid.
  - exists [login_request settings; fetch_request settings uid].
    split; [by apply (do_posted_logged_in settings w uid i) |].
    split; [done |]. intros _. right. by exists uid, i.
  - exists [login_request settings]. rewrite do_run, Hc, Hl, Huid. cbn.
    rewrite ?app_nil_r. repeat split; try done. intros _. by left.
Qed.

(** X6: the two requests of a run that logs in, spelt out: both go to the
    [/jsonrpc] path of [ODOO_URL]; the login payload has the method [login]
    and the parameters db, login and password; the fetch payload has the
    method [call] and, as arguments in this order, the db, the uid login
    returned, the password, the model, the operation, the empty domain and
    the list of fields. *)
Theorem do_requests_carry_settings_and_uid (settings : Settings) (w : World)
    (uid i : PyVal) :
  configured settings = true ->
  reply (post (login_request settings)) = Some (Ok uid i) ->
  truthy uid = true ->
  posted (snd (do settings w))
  = posted w
    ++ [{| url := String.append (fmt (ODOO_URL settings)) "/jsonrpc";
           json :=
             {| rpc_method := "login";
                rpc_params :=
                  VDict [("db", setting_val (ODOO_DB settings));
                         ("login", setting_val (ODOO_USERNAME settings));
                         ("password", setting_val (ODOO_PASSWORD settings))] |} |};
        {| url := String.append (fmt (ODOO_URL settings)) "/jsonrpc";
           json :=
             {| rpc_method := "call";
                rpc_params :=
                  VDict
                    [("service", VStr "object");
                     ("method", VStr "execute_kw");
                     ("args",
                      VList [setting_val (ODOO_DB settings);
                             uid;
                             setting_val (ODOO_PASSWORD settings);
                             VStr "res.partner";
                             VStr "search_read";
                             VList [];
                             VDict [("fields",
                                     VList [VStr "id"; VStr "name"; VStr "email";
                                            VStr "phone"; VStr "street";
                                            VStr "city"; VStr "zip";
                                            VStr "country_id"])]])] |} |}].
Proof.
  intros Hc Hlogin Huid.
  by rewrite (do_posted_logged_in settings w uid i Hc Hlogin Huid).
Qed.

(** *** The ways a run stops *)

(** X7: a setting that is the empty string stops the run as a missing one
    does: the test is the truth of the four values. *)
Theorem empty_setting_counts_as_missing (settings : Settings) (w : World) :
  ODOO_URL settings = Some "" \/ ODOO_DB settings = Some ""
  \/ ODOO_USERNAME settings = Some "" \/ ODOO_PASSWORD settings = Some "" ->
  exists w', do settings w = (Val tt, w')
    /\ posted w' = posted w
    /\ objects w' = objects w
    /\ logged w' = logged w ++ [InfoStarting; ErrorNotConfigured].
Proof.
  intros Hempty.
  assert (Hc : configured settings = false).
  { unfold configured. apply not_true_is_false. intros Hall.
    cbn [forallb] in Hall. rewrite !andb_true_iff in Hall.
    destruct Hall as (H1 & H2 & H3 & H4 & _).
    destruct Hempty as [H | [H | [H | H]]]; rewrite H in *; discriminate. }
  rewrite do_run, Hc. eexists. split; [reflexivity |].
  simpl. by rewrite app_nil_r.
Qed.

(** X8: a login answered by an error envelope stops the run after that one
    request: the table and the clock are untouched and the last log record
    carries the message and the data of the error. *)
Theorem login_error_envelope_stops (settings : Settings) (w : World)
    (code message data i : PyVal) :
  configured settings = true ->
  reply (post (login_request settings)) = Some (Error code message data i) ->
  exists w', do settings w = (Val tt, w')
    /\ objects w' = objects w /\ clock w' = clock w
    /\ posted w' = posted w ++ [login_request settings]
    /\ last (logged w') = Some (ErrorAuthFailed message data).
Proof.
  intros Hc Hlogin. rewrite do_run, Hc, Hlogin. eexists. split; [reflexivity |].
  cbn. rewrite app_nil_r. repeat split; try done. by rewrite last_snoc.
Qed.

(** X9: a fetch answered by an error envelope stops the run after the two
    requests: the table and the clock are untouched and the last log record
    carries the message and the data of the error. *)
Theorem fetch_error_envelope_stops (settings : Settings) (w : World)
    (uid i code message data i' : PyVal) :
  configured settings = true ->
  reply (post (login_request settings)) = Some (Ok uid i) ->
  truthy uid = true ->
  reply (post (fetch_request settings uid)) = Some (Error code message data i') ->
  exists w', do settings w = (Val tt, w')
    /\ objects w' = objects w /\ clock w' = clock w
    /\ posted w' = posted w ++ [login_request settings; fetch_request settings uid]
    /\ last (logged w') = Some (ErrorFetchFailed message data).
Proof.
  intros Hc Hlogin Huid Hfetch. rewrite do_run, Hc, Hlogin, Huid, Hfetch.
  eexists. split; [reflexivity |].
  cbn. rewrite app_nil_r, <- app_assoc. repeat split; try done. by rewrite last_snoc.
Qed.

(** X10: an answer that parses to something that is neither an [Ok] nor an
    [Error] (the iterator of a batch answer) makes [do] raise
    [AttributeError], at login as at fetch, with the table untouched. *)
Theorem batch_answer_raises (settings : Settings) (w : World) :
  configured settings = true ->
  reply (post (login_request settings)) = Some Batch
  \/ (exists uid i,
        reply (post (login_request settings)) = Some (Ok uid i)
        /\ truthy uid = true
        /\ reply (post (fetch_request settings uid)) = Some Batch) ->
  fst (do settings w) = Exn AttributeError
  /\ objects (snd (do settings w)) = objects w.
Proof.
  intros Hc [Hlogin | (uid & i & Hlogin & Huid & Hfetch)]; rewrite do_run, Hc, Hlogin.
  - by split.
  - rewrite Huid, Hfetch. by split.
Qed.

(** X11: a fetched result that has no length ([None], a boolean, a number) makes
    [do] raise [TypeError] before anything is written or the count is
    logged. *)
Theorem unsized_result_raises (settings : Settings) (w : World)
    (uid i data i' : PyVal) :
  configured settings = true ->
  reply (post (login_request settings)) = Some (Ok uid i) ->
  truthy uid = true ->
  reply (post (fetch_request settings uid)) = Some (Ok data i') ->
  py_len data = None ->
  do settings w = (Exn TypeError, after_fetch settings uid w)
  /\ objects (after_fetch settings uid w) = objects w.
Proof.
  intros Hc Hlogin Huid Hfetch Hlen.
  rewrite do_run, Hc, Hlogin, Huid, Hfetch, Hlen. by split.
Qed.

(** X12: an empty fetched result (the empty list, but also the empty string or
    the empty dict) is a success: the run logs that it fetched 0 contacts
    and that 0 were created and 0 updated, and leaves the table and the
    clock as they were. *)
Theorem empty_result_completes (settings : Settings) (w : World)
    (uid i data i' : PyVal) :
  configured settings = true ->
  reply (post (login_request settings)) = Some (Ok uid i) ->
  truthy uid = true ->
  reply (post (fetch_request settings uid)) = Some (Ok data i') ->
  py_len data = Some 0%nat ->
  exists w', do settings w = (Val tt, w')
    /\ objects w' = objects w /\ clock w' = clock w
    /\ logged w'
       = logged (after_fetch settings uid w) ++ [InfoFetched 0; InfoComplete 0 0].
Proof.
  intros Hc Hlogin Huid Hfetch Hlen.
  rewrite do_run, Hc, Hlogin, Huid, Hfetch, Hlen.
  assert (Hiter : py_iter data = Some []).
  { destruct data as [ | b | n | m e | s | l | d ]; try done; cbn in Hlen.
    - by destruct s.
    - by destruct l.
    - by destruct d. }
  rewrite Hiter. eexists. split; [reflexivity |].
  cbn. by rewrite <- app_assoc.
Qed.

Lemma transport_log_last (u m : string) (o : PostOutcome) (l : list LogRecord)
    (x : LogRecord) :
  reply o = None ->
  exists r, last (l ++ x :: transport_log u m o) = Some r /\ is_error r = true.
Proof.
  intros Hr. rewrite last_app, last_cons. unfold reply in Hr. unfold transport_log.
  destruct o as [ | msg | msg | r]; try (by eexists).
  destruct (raise_for_status r).
  - destruct (negb (String.eqb (text r) "")); [| by eexists].
    rewrite Hr. by eexists.
  - rewrite Hr. by eexists.
Qed.

(** X13: a run that returns has said how it ended: the last record of its log is
    the completion summary or an error. *)
Theorem do_ends_with_summary_or_error (settings : Settings) (w w' : World) :
  do settings w = (Val tt, w') ->
  exists r, last (logged w') = Some r
            /\ (is_summary r = true \/ is_error r = true).
Proof.
  rewrite do_run.
  destruct (configured settings).
  2: { intros [= <-]. exists ErrorNotConfigured.
       split; [cbn [after logged]; by rewrite last_app | by right]. }
  destruct (reply (post (login_request settings))) as [[uid i | c m d i | ] | ] eqn:Hl.
  - destruct (truthy uid).
    + destruct (reply (post (fetch_request settings uid)))
        as [[data i2 | c m d i2 | ] | ] eqn:Hf.
      * destruct (py_len data) as [n|]; [| done].
        destruct (py_iter data) as [items|]; [| done].
        destruct (sync_contacts _ _ _) as [[counts | e] w1]; [| done].
        intros [= <-]. eexists. split; [apply last_snoc | by left].
      * intros [= <-]. eexists. split; [apply last_snoc | by right].
      * done.
      * intros [= <-]. unfold after_fetch. cbn [after logged].
        destruct (transport_log_last (url (fetch_request settings uid)) "execute_kw"
                    _ (logged (after_login settings w)) (InfoAuthenticated uid) Hf)
          as (r & Hlast & Herr).
        exists r. split; [exact Hlast | by right].
    + intros [= <-]. eexists. split; [apply last_snoc |].
      right. by destruct (is_bool uid).
  - intros [= <-]. eexists. split; [apply last_snoc | by right].
  - done.
  - intros [= <-].
    destruct (transport_log_last (url (login_request settings)) "login"
                _ (logged w) InfoStarting Hl) as (r & Hlast & Herr).
    exists r. split; [exact Hlast | by right].
Qed.

(** *** The loop, record by record *)

Lemma sync_contacts_app (l1 l2 : list PyVal) :
  forall counts w,
    sync_contacts counts (l1 ++ l2) w =
    match sync_contacts counts l1 w with
    | (Val counts1, w1) => sync_contacts counts1 l2 w1
    | (Exn e, w1) => (Exn e, w1)
    end.
Proof.
  induction l1 as [| x l1 IH]; intros counts w; [done |].
  rewrite <- app_comm_cons, !sync_contacts_cons.
  destruct (sync_contact counts x w) as [[counts' | e] w']; [apply IH | done].
Qed.

(** X18: an element of the fetched list that is not a dict stops the loop with
    [AttributeError] where it stands: the records before it have been
    processed, the elements after it are not looked at, and no summary is
    reached. *)
Theorem non_dict_element_aborts (ds : list dict) (x : PyVal) (rest : list PyVal)
    (counts : nat * nat) (w : World) :
  is_dict x = false ->
  exists counts1 w1,
    sync_contacts counts (map VDict ds) w = (Val counts1, w1)
    /\ sync_contacts counts (map VDict ds ++ x :: rest) w = (Exn AttributeError, w1).
Proof.
  intros Hx. destruct counts as [c u].
  destruct (sync_contacts_dicts ds c u w) as (c' & u' & w' & Hloop & _).
  exists (c', u'), w'. split; [done |].
  rewrite sync_contacts_app, Hloop, sync_contacts_cons.
  by destruct x.
Qed.

(** The created counter is the number of rows the loop added: over a batch
    of records, whatever writes fail, the table grows by exactly the number
    of records counted as created. *)
Lemma sync_contacts_growth (ds : list dict) :
  forall c u w c' u' w',
    sync_contacts (c, u) (map VDict ds) w = (Val (c', u'), w') ->
    (size (objects w') + c = size (objects w) + c')%nat.
Proof.
  induction ds as [| d ds IH]; intros c u w c' u' w'.
  - intros [= <- <- <-]. lia.
  - rewrite map_cons, sync_contacts_cons, sync_contact_run.
    destruct (remote_id d) as [z|].
    + destruct (db_error w z (defaults_of d)).
      * intros Hloop. apply IH in Hloop. cbn in Hloop. lia.
      * destruct (objects w !! z) eqn:Hrow; intros Hloop; apply IH in Hloop;
          unfold written in Hloop; cbn in Hloop.
        -- rewrite map_size_insert_Some in Hloop by (rewrite Hrow; eauto). lia.
        -- rewrite map_size_insert_None in Hloop by done. lia.
    + intros Hloop. apply IH in Hloop. cbn in Hloop. lia.
Qed.

(** X19: at the end of a run over a batch of records the created count of the
    summary is the number of rows the table has gained, whatever writes
    failed. *)
Theorem created_count_is_table_growth (settings : Settings) (w : World)
    (uid i i' : PyVal) (ds : list dict) :
  configured settings = true ->
  reply (post (login_request settings)) = Some (Ok uid i) ->
  truthy uid = true ->
  reply (post (fetch_request settings uid)) = Some (Ok (VList (map VDict ds)) i') ->
  exists created updated w',
    do settings w = (Val tt, w')
    /\ last (logged w') = Some (InfoComplete created updated)
    /\ size (objects w') = (size (objects w) + created)%nat.
Proof.
  intros Hc Hlogin Huid Hfetch.
  rewrite do_run, Hc, Hlogin, Huid, Hfetch. cbn [py_len py_iter].
  set (w0 := after (after_fetch settings uid w) [] [InfoFetched (length (map VDict ds))]).
  destruct (sync_contacts_dicts ds 0%nat 0%nat w0) as (c' & u' & w' & Hloop & _).
  rewrite Hloop. apply sync_contacts_growth in Hloop.
  exists c', u'. eexists. split; [reflexivity |]. cbn [after logged objects fst snd].
  split; [by rewrite last_snoc |]. subst w0. cbn in Hloop. lia.
Qed.

(** *** The mapping, completed *)

(** X22: the country of a record is the second element of its relation when
    that is a list of at least two elements, and [None] in every other case:
    an absent, null or false relation, an empty or one-element list, a
    value of another type. *)
Theorem country_name_of_cases (contact_data : dict) :
  country_name_of contact_data
  = match get contact_data "country_id" with
    | VList (_ :: display_name :: _) => display_name
    | _ => VNone
    end.
Proof.
  unfold country_name_of.
  destruct (get contact_data "country_id") as [ | [] | n | m e | s | l | d ];
    try reflexivity.
  - cbn. by destruct (negb (n =? 0)).
  - cbn. by destruct (negb (m =? 0)).
  - cbn. by destruct (negb (String.eqb s "")).
  - destruct l as [| x [| y l]]; reflexivity.
  - destruct d; reflexivity.
Qed.

(** X23: the defaults of a record always carry the six optional columns, in
    this order, and carry the name exactly when the record has one that is
    not [None]: the name is never written as [None]. *)
Theorem defaults_never_carry_null_name (contact_data : dict) :
  map fst (defaults_of contact_data)
  = (if is_None (get contact_data "name") then [] else ["name"])
    ++ ["email"; "phone"; "street"; "city"; "zip_code"; "country"]
  /\ getitem (defaults_of contact_data) "name" <> Some VNone.
Proof.
  rewrite defaults_of_eq.
  destruct (get contact_data "name") as [ | b | n | m e | s | l | d ]; by split.
Qed.

(** *** The row of an id after the loop *)

Lemma same_fields_mapped_row (d : dict) (obj obj' : OdooContact) :
  same_fields obj obj' -> same_fields (mapped_row d obj) (mapped_row d obj').
Proof.
  unfold same_fields, stamp, mapped_row. cbn. intros [= Hname _ _ _ _ _ _].
  by rewrite Hname.
Qed.

Lemma same_fields_mapped_twice (d : dict) (obj : OdooContact) :
  same_fields (mapped_row d (mapped_row d obj)) (mapped_row d obj).
Proof.
  unfold same_fields, stamp, mapped_row. cbn.
  by destruct (is_None (get d "name")).
Qed.

Lemma row_before_written (w : World) (z z' : Z) (d : dict) :
  z <> z' -> same_fields (row_before (written w z' d) z) (row_before w z).
Proof.
  intros Hne. unfold row_before, written. cbn.
  rewrite lookup_insert_ne by done. by destruct (objects w !! z).
Qed.

(** After the loop the row of an id is the last record of that id, mapped
    onto the row that was there when this record came up. *)
Lemma sync_contacts_last_record (ds1 ds2 : list dict) (d : dict) (z : Z)
    (counts counts1 : nat * nat) (w w1 : World) :
  remote_id d = Some z ->
  db_error w1 z (defaults_of d) = false ->
  (forall d', In d' ds2 -> remote_id d' <> Some z) ->
  sync_contacts counts (map VDict ds1) w = (Val counts1, w1) ->
  objects (snd (sync_contacts counts (map VDict (ds1 ++ d :: ds2)) w)) !! z
  = Some (stamp (clock w1) (mapped_row d (row_before w1 z))).
Proof.
  intros Hid Hdb Hrest Hloop.
  rewrite map_app, sync_contacts_app, Hloop, map_cons, sync_contacts_cons.
  destruct counts1 as [c u]. rewrite sync_contact_run, Hid, Hdb.
  assert (Hframe : forall cs,
            objects (snd (sync_contacts cs (map VDict ds2) (written w1 z d))) !! z
            = objects (written w1 z d) !! z).
  { intros cs. apply sync_contacts_frame. intros d' Hin.
    apply in_map_iff in Hin as (d'' & [= ->] & Hin). by apply Hrest. }
  destruct (objects w1 !! z) eqn:Hrow; rewrite Hframe;
    unfold written, row_before; cbn; rewrite Hrow; by rewrite lookup_insert_eq.
Qed.

(** X20: the last record of an id wins: when it is written, the row of that id
    after the loop holds the text of each of its optional fields, its
    country, and its name unless that is [None], whatever records of the
    same id came before it in the batch. *)
Theorem last_record_wins (ds1 ds2 : list dict) (d : dict) (z : Z)
    (counts : nat * nat) (w : World) :
  remote_id d = Some z ->
  (forall w0, db_error w0 z (defaults_of d) = false) ->
  (forall d', In d' ds2 -> remote_id d' <> Some z) ->
  exists obj,
    objects (snd (sync_contacts counts (map VDict (ds1 ++ d :: ds2)) w)) !! z
    = Some obj
    /\ email obj = to_python (get d "email")
    /\ phone obj = to_python (get d "phone")
    /\ street obj = to_python (get d "street")
    /\ city obj = to_python (get d "city")
    /\ zip_code obj = to_python (get d "zip")
    /\ country obj = to_python (country_name_of d)
    /\ (get d "name" <> VNone -> Some (name obj) = to_python (get d "name")).
Proof.
  intros Hid Hdb Hrest. destruct counts as [c u].
  destruct (sync_contacts_dicts ds1 c u w) as (c1 & u1 & w1 & Hloop & _).
  rewrite (sync_contacts_last_record ds1 ds2 d z (c, u) (c1, u1) w w1
             Hid (Hdb w1) Hrest Hloop).
  eexists. split; [reflexivity |]. cbn. repeat split.
  intros Hname. by destruct (get d "name").
Qed.

(** Over a batch whose ids are all different and all written, the row of
    each record after the loop is that record mapped onto the row the table
    had (or a fresh one), up to the time of the save. *)
Lemma sync_contacts_row_nodup (ds : list dict) :
  (forall w z defaults, db_error w z defaults = false) ->
  Forall (fun d => is_Some (remote_id d)) ds ->
  NoDup (omap remote_id ds) ->
  forall d z, In d ds -> remote_id d = Some z ->
  forall counts w,
    exists obj,
      objects (snd (sync_contacts counts (map VDict ds) w)) !! z = Some obj
      /\ same_fields obj (mapped_row d (row_before w z)).
Proof.
  intros Hdb Hids. induction Hids as [| d0 ds [z0 Hz0] Hids IH];
    intros Hnodup d z Hin Hid counts w; [done |].
  rewrite (omap_step remote_id d0 ds z0 Hz0) in Hnodup.
  apply NoDup_cons in Hnodup as [Hfresh Hnodup].
  destruct Hin as [<- | Hin].
  - assert (z0 = z) as -> by congruence.
    pose proof (sync_contacts_last_record [] ds d0 z counts counts w w
                  Hid (Hdb _ _ _)) as Hrow.
    change ([] ++ d0 :: ds) with (d0 :: ds) in Hrow.
    rewrite Hrow; [by eexists | | done].
    intros d' Hin' Hid'. apply Hfresh, list_elem_of_omap.
    exists d'. split; [by apply list_elem_of_In | done].
  - assert (Hne : z <> z0).
    { intros ->. apply Hfresh, list_elem_of_omap.
      exists d. split; [by apply list_elem_of_In | done]. }
    rewrite map_cons, sync_contacts_cons. destruct counts as [c u].
    rewrite sync_contact_run, Hz0, Hdb.
    destruct (objects w !! z0);
      match goal with
      | |- context [sync_contacts ?cs _ (written w z0 d0)] =>
          destruct (IH Hnodup d z Hin Hid cs (written w z0 d0)) as (obj & Hobj & Hsame)
      end;
      exists obj; (split; [done |]);
      unfold same_fields in *; rewrite Hsame;
      apply same_fields_mapped_row, row_before_written; done.
Qed.

Lemma do_objects_of_loop (settings : Settings) (w : World)
    (uid i i' : PyVal) (ds : list dict) :
  configured settings = true ->
  reply (post (login_request settings)) = Some (Ok uid i) ->
  truthy uid = true ->
  reply (post (fetch_request settings uid)) = Some (Ok (VList (map VDict ds)) i') ->
  objects (snd (do settings w))
  = objects (snd (sync_contacts (0%nat, 0%nat) (map VDict ds)
                    (after (after_fetch settings uid w) []
                       [InfoFetched (length (map VDict ds))]))).
Proof.
  intros Hc Hlogin Huid Hfetch.
  rewrite do_run, Hc, Hlogin, Huid, Hfetch. cbn [py_len py_iter].
  by destruct (sync_contacts _ _ _) as [[counts | e] w1].
Qed.

(** X21: a second run on the same remote data changes nothing but the times of
    the saves: when the ids of the batch are all different and every record
    is written, each row of the table after the first run is still there
    after the second with the same name and the same optional columns. *)
Theorem second_run_changes_only_stamps (settings : Settings) (w : World)
    (uid i i' : PyVal) (ds : list dict) (z : Z) (obj1 : OdooContact) :
  configured settings = true ->
  reply (post (login_request settings)) = Some (Ok uid i) ->
  truthy uid = true ->
  reply (post (fetch_request settings uid)) = Some (Ok (VList (map VDict ds)) i') ->
  (forall w z defaults, db_error w z defaults = false) ->
  Forall (fun d => is_Some (remote_id d)) ds ->
  NoDup (omap remote_id ds) ->
  objects (snd (do settings w)) !! z = Some obj1 ->
  exists obj2,
    objects (snd (do settings (snd (do settings w)))) !! z = Some obj2
    /\ same_fields obj1 obj2.
Proof.
  intros Hc Hlogin Huid Hfetch Hdb Hids Hnodup Hrow1.
  rewrite (do_objects_of_loop settings (snd (do settings w)) uid i i' ds
             Hc Hlogin Huid Hfetch).
  set (w0' := after (after_fetch settings uid (snd (do settings w))) [] _).
  assert (Hrow0' : objects w0' !! z = Some obj1) by exact Hrow1.
  rewrite (do_objects_of_loop settings w uid i i' ds Hc Hlogin Huid Hfetch) in Hrow1.
  set (w0 := after (after_fetch settings uid w) [] _) in Hrow1.
  destruct (decide (z ∈ omap remote_id ds)) as [Hin | Hout].
  - apply list_elem_of_omap in Hin as (d & Hin & Hid).
    apply list_elem_of_In in Hin.
    destruct (sync_contacts_row_nodup ds Hdb Hids Hnodup d z Hin Hid (0%nat, 0%nat) w0)
      as (obj & Hobj & Hsame1).
    rewrite Hrow1 in Hobj. injection Hobj as <-.
    destruct (sync_contacts_row_nodup ds Hdb Hids Hnodup d z Hin Hid (0%nat, 0%nat) w0')
      as (obj2 & Hobj2 & Hsame2).
    exists obj2. split; [done |].
    assert (Hbefore : row_before w0' z = obj1)
      by (unfold row_before; by rewrite Hrow0').
    rewrite Hbefore in Hsame2.
    unfold same_fields in *. rewrite Hsame2.
    rewrite (same_fields_mapped_row d _ _ Hsame1).
    by rewrite same_fields_mapped_twice.
  - exists obj1. split; [| done]. rewrite <- Hrow0'.
    apply sync_contacts_frame. intros d Hin Hid. apply Hout, list_elem_of_omap.
    apply in_map_iff in Hin as (d' & [= ->] & Hin).
    exists d. split; [by apply list_elem_of_In | done].
Qed.

End Properties.

(** ** The properties on concrete runs *)

Import Fixture.

(** *** The tests of the repository, replayed *)

(** [test_successful_sync_new_contact]. *)
Example successful_sync_new_contact :
  let w' := snd (run (remote login_ok one_record) empty_world) in
  size (objects w') = 1%nat
  /\ objects w' !! 1
     = Some {| name := "Test Contact 1"; email := None; phone := None;
               street := None; city := None; zip_code := None;
               country := Some "Testland"; last_synced := 0%nat |}.
Proof. vm_compute. by split. Qed.

(** [test_odoo_authentication_failure_http_error]. *)
Example authentication_failure_http_error :
  let body := "Internal Server Error text from Odoo" in
  run (remote (plain 500 "Server Error" body) one_record) empty_world
  = (Val tt,
     {| objects := ∅; clock := 0%nat;
        posted := [login_request settings];
        logged := [InfoStarting;
                   ErrorHttp "http://fake-odoo-url.com/jsonrpc" 500
                     "Server Error" body;
                   ErrorUnparsedErrorResponse] |}).
Proof. reflexivity. Qed.

(** [test_empty_search_read_result]. *)
Example empty_search_read_result :
  let w' := snd (run (remote login_ok (fetched [] []))
                   (world_with {[99 := pre_existing]})) in
  objects w' = {[99 := pre_existing]}
  /\ logged w' = [InfoStarting; InfoAuthenticated (VInt 123); InfoFetched 0;
                  InfoComplete 0 0].
Proof. by split. Qed.

(** [test_successful_sync_contact_clears_fields_with_none]. *)
Example sync_contact_clears_fields_with_none :
  let w' := snd (run (remote login_ok (fetched [seven_update_text] [seven_update]))
                   (world_with {[7 := contact_seven]})) in
  size (objects w') = 1%nat
  /\ objects w' !! 7
     = Some {| name := "Contact Seven Updated"; email := None;
               phone := Some "777-NEW"; street := None; city := None;
               zip_code := None; country := None; last_synced := 1%nat |}.
Proof. vm_compute. by split. Qed.

(** [test_malformed_json_response_from_odoo]. *)
Example malformed_json_response :
  let w' := snd (run (remote login_ok (plain 200 "OK" "This is not JSON {"))
                   empty_world) in
  objects w' = ∅
  /\ last (logged w')
     = Some (ErrorProcessing "http://fake-odoo-url.com/jsonrpc" "execute_kw").
Proof. by split. Qed.

(** C1: a login answered with status 500 and a body that is a success
    envelope does not stop the run.  The transport step logs the HTTP error
    and returns the parsed [Ok]; the run goes on to fetch and writes the
    fetched record. *)
Theorem C1_http_error_with_success_body_is_written :
  let post := remote login_500_with_result
                (fetched [contact_one_text] [contact_one]) in
  post (login_request settings) = login_500_with_result
  /\ reply login_500_with_result = Some (Ok (VInt 123) (VInt 1))
  /\ exists w',
       run post empty_world = (Val tt, w')
       /\ logged w'
          = [InfoStarting;
             ErrorHttp "http://fake-odoo-url.com/jsonrpc" 500 "Server Error"
               (envelope_text "123");
             InfoAuthenticated (VInt 123); InfoFetched 1; InfoComplete 1 0]
       /\ length (posted w') = 2%nat
       /\ name <$> objects w' !! 1 = Some "Test Contact 1".
Proof.
  split; [reflexivity |]. split; [reflexivity |].
  eexists. split; [vm_compute; reflexivity |].
  split; [reflexivity |]. split; reflexivity.
Qed.

(** C2, as stated, fails for the name: a record without a name is mapped to
    defaults without the key [name], and written over a row it leaves the
    name of that row, which is neither empty nor [None]. *)
Lemma C2_counterexample :
  getitem seven_no_name "name" = None
  /\ getitem (defaults_of seven_no_name) "name" = None
  /\ name <$> objects (snd (run (remote login_ok
                                   (fetched [seven_no_name_text] [seven_no_name]))
                              (world_with {[7 := contact_seven]}))) !! 7
     = Some "Contact Seven".
Proof. split; [reflexivity |]. split; [reflexivity |]. vm_compute. reflexivity. Qed.

(** C3, as stated, fails: with one row in the table and a fetched batch of
    two records, one of them without an id, login and fetch succeed, one
    distinct remote id is seen, the table ends with two rows, and created
    plus updated is one. *)
Lemma C3_counterexample :
  let batch := [contact_one; no_id] in
  let w' := snd (run (remote login_ok (fetched [contact_one_text; no_id_text] batch))
                   (world_with {[99 := pre_existing]})) in
  last (logged w') = Some (InfoComplete 1 0)
  /\ length batch = 2%nat
  /\ size (list_to_set (omap (remote_id int_column) batch) : gset Z) = 1%nat
  /\ size (objects w') = 2%nat.
Proof. vm_compute. repeat split. Qed.

(** C5, as stated, fails for the name: a record that carries the name with
    the value [None], written over a row whose name is set, leaves that
    name. *)
Lemma C5_counterexample :
  getitem seven_nulls "name" = Some VNone
  /\ name contact_seven = "Contact Seven"
  /\ name <$> objects (snd (run (remote login_ok
                                   (fetched [seven_nulls_text] [seven_nulls]))
                              (world_with {[7 := contact_seven]}))) !! 7
     = Some "Contact Seven".
Proof. split; [reflexivity |]. split; [reflexivity |]. vm_compute. reflexivity. Qed.

(** C6, as stated, fails: with a batch of two records, one of them without
    an id, the second of two runs on the same remote data updates one row,
    not two. *)
Lemma C6_counterexample :
  let batch := [contact_one; no_id] in
  let post := remote login_ok (fetched [contact_one_text; no_id_text] batch) in
  let w1 := snd (run post empty_world) in
  let w2 := snd (run post w1) in
  length batch = 2%nat
  /\ last (logged w1) = Some (InfoComplete 1 0)
  /\ last (logged w2) = Some (InfoComplete 0 1).
Proof. vm_compute. repeat split. Qed.

(** *** The general properties at concrete inputs *)

Lemma C2_witness :
  is_Some (set_defaults str (defaults_of seven_no_name) contact_seven)
  /\ (getitem (defaults_of contact_one) (local_column "email") = Some VNone
      /\ getattr (mapped_row str contact_one contact_seven) (local_column "email")
         = None)
  /\ (getitem (defaults_of seven_no_name) "name" = None
      /\ name (mapped_row str seven_no_name contact_seven) = name contact_seven).
Proof.
  split; [| split].
  - apply (proj1 (C2_missing_fields_map_to_null str seven_no_name)).
  - apply (proj1 (proj2 (C2_missing_fields_map_to_null str contact_one))
             "email" contact_seven (mapped_row str contact_one contact_seven)).
    + by left.
    + reflexivity.
    + reflexivity.
  - apply (proj2 (proj2 (C2_missing_fields_map_to_null str seven_no_name))
             contact_seven (mapped_row str seven_no_name contact_seven)).
    + reflexivity.
    + reflexivity.
Defined.

Lemma C3_witness :
  exists created updated w',
    run (remote login_ok one_record) (world_with {[99 := pre_existing]})
    = (Val tt, w')
    /\ last (logged w') = Some (InfoComplete created updated)
    /\ (created + updated = 1)%nat
    /\ dom (objects w') = {[99]} ∪ list_to_set [1]
    /\ size (objects w') = size ({[99]} ∪ list_to_set [1] : gset Z)
    /\ (({[99 := pre_existing]} : gmap Z OdooContact) = ∅ ->
        size (objects w') = size (list_to_set [1] : gset Z)).
Proof.
  pose proof (C3_rows_and_counts (remote login_ok one_record) int_column
                str no_db_error settings (world_with {[99 := pre_existing]})
                (VInt 123) (VInt 1) (VInt 1) [contact_one]) as H.
  cbn [world_with objects] in H. rewrite dom_singleton_L in H.
  apply H.
  - reflexivity.
  - reflexivity.
  - reflexivity.
  - reflexivity.
  - intros w z defaults. reflexivity.
  - repeat constructor. by exists 1.
Defined.

Lemma C4_witness :
  country_name_of contact_one = VStr "Testland"
  /\ getitem (defaults_of contact_one) "country" = Some (VStr "Testland").
Proof.
  apply (C4_country_decoding contact_one (VStr "Testland")).
  apply (decode_pair (VInt 10) (VStr "Testland")).
Defined.

Lemma C5_witness :
  exists obj',
    objects (snd (sync_contact int_column str no_db_error (0%nat, 0%nat)
                    (VDict seven_nulls) (world_with {[7 := contact_seven]}))) !! 7
    = Some obj'
    /\ (forall f, In f optional_fields ->
                  getitem seven_nulls f = Some VNone ->
                  getattr obj' (local_column f) = None)
    /\ (forall f, In f scalar_fields ->
                  getattr obj' (local_column f) = to_python str (get seven_nulls f))
    /\ (getitem seven_nulls "name" = Some VNone -> name obj' = name contact_seven).
Proof.
  apply (C5_explicit_null_clears int_column str no_db_error seven_nulls
           (world_with {[7 := contact_seven]}) 7 contact_seven (0%nat, 0%nat)).
  - reflexivity.
  - reflexivity.
  - reflexivity.
Defined.

Lemma C6_witness :
  exists w1 w2,
    run (remote login_ok one_record) empty_world = (Val tt, w1)
    /\ run (remote login_ok one_record) w1 = (Val tt, w2)
    /\ last (logged w2) = Some (InfoComplete 0 1)
    /\ dom (objects w2) = dom (objects w1)
    /\ size (objects w2) = size (objects w1).
Proof.
  apply (C6_second_run_updates_only (remote login_ok one_record) int_column
           str no_db_error settings empty_world (VInt 123) (VInt 1) (VInt 1)
           [contact_one]).
  - reflexivity.
  - reflexivity.
  - reflexivity.
  - reflexivity.
  - intros w z defaults. reflexivity.
  - repeat constructor. by exists 1.
Defined.

Lemma C7_witness :
  exists w',
    run (remote login_false one_record) empty_world = (Val tt, w')
    /\ objects w' = objects empty_world
    /\ posted w' = posted empty_world ++ [login_request settings]
    /\ last (logged w') = Some (ErrorAuthFalse (VBool false))
    /\ (is_bool (VBool false) = true <-> VBool false = VBool false)
    /\ ErrorAuthFalse (VBool false) <> ErrorAuthFalsy (VBool false).
Proof.
  apply (C7_falsy_uid_fails_authentication (remote login_false one_record)
           int_column str no_db_error settings empty_world (VBool false) (VInt 1)).
  - reflexivity.
  - reflexivity.
  - reflexivity.
Defined.

Lemma C8_witness :
  exists created updated w',
    run (remote login_ok two_records) empty_world = (Val tt, w')
    /\ last (logged w') = Some (InfoComplete created updated)
    /\ (created + updated + sync_errors (logged w')
        = 2 + sync_errors (logged empty_world))%nat.
Proof.
  apply proj1 with (B := forall counts d w0,
    (forall z, remote_id int_column d = Some z ->
               no_db_error w0 z (defaults_of d) = true) ->
    sync_contact int_column str no_db_error counts (VDict d) w0
    = (Val counts, after w0 [] [ErrorSyncing (get d "id")])).
  apply (C8_record_errors_do_not_abort (remote login_ok two_records) int_column
           str no_db_error settings empty_world (VInt 123) (VInt 1) (VInt 1)
           [contact_one; no_id]).
  - reflexivity.
  - reflexivity.
  - reflexivity.
  - reflexivity.
Defined.

Lemma C9_witness :
  exists w',
    do (remote login_ok one_record) int_column str no_db_error no_url empty_world
    = (Val tt, w')
    /\ posted w' = posted empty_world
    /\ objects w' = objects empty_world
    /\ logged w' = logged empty_world ++ [InfoStarting; ErrorNotConfigured].
Proof.
  apply (C9_missing_setting_aborts_before_network (remote login_ok one_record)
           int_column str no_db_error no_url empty_world).
  left. reflexivity.
Defined.

Lemma C10_witness :
  objects (snd (run (remote login_ok one_record)
                  (world_with {[99 := pre_existing]}))) !! 99
  = objects (world_with {[99 := pre_existing]}) !! 99.
Proof.
  apply (C10_rows_not_fetched_unchanged (remote login_ok one_record) int_column
           str no_db_error settings (world_with {[99 := pre_existing]}) 99).
  intros d Hin. vm_compute in Hin.
  destruct Hin as [Heq | []]. injection Heq as <-. vm_compute. discriminate.
Defined.

(** *** The further properties at concrete inputs *)

Lemma http_error_snippet_is_bounded_witness :
  exists snippet ls,
    logged (snd (make_odoo_request
                   (remote (plain 500 "Server Error" "Internal Server Error") one_record)
                   "http://fake-odoo-url.com/jsonrpc" "login" (Some "common")
                   login_params empty_world))
    = logged empty_world ++ ErrorHttp "http://fake-odoo-url.com/jsonrpc" 500
                              "Server Error" snippet :: ls
    /\ (String.length snippet <= 200)%nat
    /\ (exists rest, "Internal Server Error" = String.append snippet rest)
    /\ ((String.length "Internal Server Error" <= 200)%nat ->
        snippet = "Internal Server Error").
Proof.
  apply (http_error_snippet_is_bounded
           (remote (plain 500 "Server Error" "Internal Server Error") one_record)
           "http://fake-odoo-url.com/jsonrpc" "login" (Some "common")
           login_params empty_world
           {| status_code := 500; reason := "Server Error";
              text := "Internal Server Error"; jsonrpc := None |}).
  - reflexivity.
  - reflexivity.
Defined.

Lemma do_requests_carry_settings_and_uid_witness :
  length (posted (snd (run (remote login_ok one_record) empty_world))) = 2%nat.
Proof.
  unfold run.
  rewrite (do_requests_carry_settings_and_uid (remote login_ok one_record)
             int_column str no_db_error settings empty_world (VInt 123) (VInt 1)).
  - reflexivity.
  - reflexivity.
  - reflexivity.
  - reflexivity.
Defined.

Lemma empty_setting_counts_as_missing_witness :
  exists w',
    do (remote login_ok one_record) int_column str no_db_error empty_db empty_world
    = (Val tt, w')
    /\ posted w' = posted empty_world
    /\ objects w' = objects empty_world
    /\ logged w' = logged empty_world ++ [InfoStarting; ErrorNotConfigured].
Proof.
  apply (empty_setting_counts_as_missing (remote login_ok one_record)
           int_column str no_db_error empty_db empty_world).
  right. left. reflexivity.
Defined.

Lemma login_error_envelope_stops_witness :
  exists w',
    run (remote (rpc_error 200 "OK" "Invalid credentials") one_record) empty_world
    = (Val tt, w')
    /\ objects w' = objects empty_world /\ clock w' = clock empty_world
    /\ posted w' = posted empty_world ++ [login_request settings]
    /\ last (logged w')
       = Some (ErrorAuthFailed (VStr "Invalid credentials") VNone).
Proof.
  apply (login_error_envelope_stops
           (remote (rpc_error 200 "OK" "Invalid credentials") one_record)
           int_column str no_db_error settings empty_world
           (VInt (-32000)) (VStr "Invalid credentials") VNone (VInt 1)).
  - reflexivity.
  - reflexivity.
Defined.

Lemma fetch_error_envelope_stops_witness :
  exists w',
    run (remote login_ok (rpc_error 200 "OK" "Access Denied")) empty_world
    = (Val tt, w')
    /\ objects w' = objects empty_world /\ clock w' = clock empty_world
    /\ posted w'
       = posted empty_world
         ++ [login_request settings; fetch_request settings (VInt 123)]
    /\ last (logged w') = Some (ErrorFetchFailed (VStr "Access Denied") VNone).
Proof.
  apply (fetch_error_envelope_stops
           (remote login_ok (rpc_error 200 "OK" "Access Denied"))
           int_column str no_db_error settings empty_world
           (VInt 123) (VInt 1) (VInt (-32000)) (VStr "Access Denied") VNone (VInt 1)).
  - reflexivity.
  - reflexivity.
  - reflexivity.
  - reflexivity.
Defined.

Lemma batch_answer_raises_witness :
  fst (run (remote batch_answer one_record) empty_world) = Exn AttributeError
  /\ objects (snd (run (remote batch_answer one_record) empty_world))
     = objects empty_world.
Proof.
  apply (batch_answer_raises (remote batch_answer one_record)
           int_column str no_db_error settings empty_world).
  - reflexivity.
  - left. reflexivity.
Defined.

Lemma unsized_result_raises_witness :
  run (remote login_ok (success 200 "OK" "null" VNone)) empty_world
  = (Exn TypeError,
     after_fetch (remote login_ok (success 200 "OK" "null" VNone)) settings
       (VInt 123) empty_world)
  /\ objects (after_fetch (remote login_ok (success 200 "OK" "null" VNone))
                settings (VInt 123) empty_world)
     = objects empty_world.
Proof.
  apply (unsized_result_raises (remote login_ok (success 200 "OK" "null" VNone))
           int_column str no_db_error settings empty_world
           (VInt 123) (VInt 1) VNone (VInt 1)).
  - reflexivity.
  - reflexivity.
  - reflexivity.
  - reflexivity.
  - reflexivity.
Defined.

Lemma empty_result_completes_witness :
  exists w',
    run (remote login_ok (fetched [] [])) (world_with {[99 := pre_existing]})
    = (Val tt, w')
    /\ objects w' = objects (world_with {[99 := pre_existing]})
    /\ clock w' = clock (world_with {[99 := pre_existing]})
    /\ logged w'
       = logged (after_fetch (remote login_ok (fetched [] [])) settings (VInt 123)
                   (world_with {[99 := pre_existing]}))
         ++ [InfoFetched 0; InfoComplete 0 0].
Proof.
  apply (empty_result_completes (remote login_ok (fetched [] []))
           int_column str no_db_error settings (world_with {[99 := pre_existing]})
           (VInt 123) (VInt 1) (VList []) (VInt 1)).
  - reflexivity.
  - reflexivity.
  - reflexivity.
  - reflexivity.
  - reflexivity.
Defined.

Lemma do_ends_with_summary_or_error_witness :
  exists r,
    last (logged (snd (run (remote login_false one_record) empty_world))) = Some r
    /\ (is_summary r = true \/ is_error r = true).
Proof.
  apply (do_ends_with_summary_or_error (remote login_false one_record)
           int_column str no_db_error settings empty_world).
  reflexivity.
Defined.

Lemma do_raises_only_type_errors_witness :
  AttributeError = AttributeError \/ AttributeError = TypeError.
Proof.
  apply (do_raises_only_type_errors (remote batch_answer one_record)
           int_column str no_db_error settings empty_world AttributeError).
  reflexivity.
Defined.

Lemma do_stamps_what_it_writes_witness :
  let w := world_with {[99 := pre_existing]} in
  let obj := {| name := "Test Contact 1"; email := None; phone := None;
                street := None; city := None; zip_code := None;
                country := Some "Testland"; last_synced := 1%nat |} in
  objects w !! 1 = Some obj
  \/ (clock w <= last_synced obj
      < clock (snd (run (remote login_ok one_record) w)))%nat.
Proof.
  apply (do_stamps_what_it_writes (remote login_ok one_record)
           int_column str no_db_error settings (world_with {[99 := pre_existing]}) 1).
  reflexivity.
Defined.

Lemma do_without_records_writes_nothing_witness :
  objects (snd (run (remote login_false one_record)
                  (world_with {[99 := pre_existing]})))
  = objects (world_with {[99 := pre_existing]})
  /\ clock (snd (run (remote login_false one_record)
                   (world_with {[99 := pre_existing]})))
     = clock (world_with {[99 := pre_existing]}).
Proof.
  apply (do_without_records_writes_nothing (remote login_false one_record)
           int_column str no_db_error settings (world_with {[99 := pre_existing]})).
  reflexivity.
Defined.

Lemma non_dict_element_aborts_witness :
  exists counts1 w1,
    sync_contacts int_column str no_db_error (0%nat, 0%nat)
      (map VDict [contact_one]) empty_world = (Val counts1, w1)
    /\ sync_contacts int_column str no_db_error (0%nat, 0%nat)
         (map VDict [contact_one] ++ VInt 5 :: [VDict no_id]) empty_world
       = (Exn AttributeError, w1).
Proof.
  apply (non_dict_element_aborts int_column str no_db_error [contact_one]
           (VInt 5) [VDict no_id] (0%nat, 0%nat) empty_world).
  reflexivity.
Defined.

Lemma created_count_is_table_growth_witness :
  exists created updated w',
    run (remote login_ok two_records) (world_with {[99 := pre_existing]})
    = (Val tt, w')
    /\ last (logged w') = Some (InfoComplete created updated)
    /\ size (objects w')
       = (size (objects (world_with {[99%Z := pre_existing]})) + created)%nat.
Proof.
  apply (created_count_is_table_growth (remote login_ok two_records)
           int_column str no_db_error settings (world_with {[99 := pre_existing]})
           (VInt 123) (VInt 1) (VInt 1) [contact_one; no_id]).
  - reflexivity.
  - reflexivity.
  - reflexivity.
  - reflexivity.
Defined.

Lemma last_record_wins_witness :
  exists obj,
    objects (snd (sync_contacts int_column str no_db_error (0%nat, 0%nat)
                    (map VDict ([contact_one] ++ contact_one_again :: [no_id]))
                    empty_world)) !! 1
    = Some obj
    /\ email obj = Some "one@example.com"
    /\ phone obj = None
    /\ street obj = None
    /\ city obj = None
    /\ zip_code obj = None
    /\ country obj = None
    /\ (VStr "Renamed" <> VNone -> Some (name obj) = Some "Renamed").
Proof.
  apply (last_record_wins int_column str no_db_error [contact_one] [no_id]
           contact_one_again 1 (0%nat, 0%nat) empty_world).
  - reflexivity.
  - intros w0. reflexivity.
  - intros d' [<- | []]. discriminate.
Defined.

Lemma second_run_changes_only_stamps_witness :
  exists obj2,
    objects (snd (run (remote login_ok one_record)
                    (snd (run (remote login_ok one_record) empty_world)))) !! 1
    = Some obj2
    /\ same_fields
         {| name := "Test Contact 1"; email := None; phone := None;
            street := None; city := None; zip_code := None;
            country := Some "Testland"; last_synced := 0%nat |}
         obj2.
Proof.
  apply (second_run_changes_only_stamps (remote login_ok one_record)
           int_column str no_db_error settings empty_world
           (VInt 123) (VInt 1) (VInt 1) [contact_one] 1).
  - reflexivity.
  - reflexivity.
  - reflexivity.
  - reflexivity.
  - intros w z defaults. reflexivity.
  - repeat constructor. by exists 1.
  - apply NoDup_singleton.
  - reflexivity.
Defined.
